(** * Sync Assist calling service: the webhook intake and the call pipeline

    A shallow embedding of the PHP classes of the implementation guide
    (STANDALONE_AI_CALLING_SERVICE.md): [ElevenLabsController],
    [OpenAIService] and the queue job [ProcessElevenLabsWebhook], with the
    PHP built-ins they call, and the properties of the specification stated
    over them. *)

From Stdlib Require Import ZArith Ascii String List Lia Bool.
From stdpp Require Import base option list gmap strings pretty.

Local Open Scope Z_scope.

(** ** PHP byte strings *)

Module Bytes.

(** A PHP string is a sequence of bytes; the digest and the encoder work on
    the byte values. *)
Definition of_string (s : string) : list Z :=
  map (fun c => Z.of_N (N_of_ascii c)) (list_ascii_of_string s).

Definition to_string (l : list Z) : string :=
  string_of_list_ascii (map (fun b => ascii_of_N (Z.to_N (b mod 256))) l).

End Bytes.

(** ** SHA-256 (FIPS 180-4), on 32-bit words carried by [Z] *)

Module SHA256.

Definition wrap (x : Z) : Z := x mod 2 ^ 32.
Definition add (x y : Z) : Z := wrap (x + y).
Definition rotr (n x : Z) : Z :=
  Z.lor (Z.shiftr x n) (wrap (Z.shiftl x (32 - n))).
Definition shr (n x : Z) : Z := Z.shiftr x n.
Definition inv (x : Z) : Z := Z.lxor x (2 ^ 32 - 1).

Definition Ch (x y z : Z) : Z := Z.lxor (Z.land x y) (Z.land (inv x) z).
Definition Maj (x y z : Z) : Z :=
  Z.lxor (Z.lxor (Z.land x y) (Z.land x z)) (Z.land y z).
Definition Sum0 (x : Z) : Z := Z.lxor (Z.lxor (rotr 2 x) (rotr 13 x)) (rotr 22 x).
Definition Sum1 (x : Z) : Z := Z.lxor (Z.lxor (rotr 6 x) (rotr 11 x)) (rotr 25 x).
Definition sig0 (x : Z) : Z := Z.lxor (Z.lxor (rotr 7 x) (rotr 18 x)) (shr 3 x).
Definition sig1 (x : Z) : Z := Z.lxor (Z.lxor (rotr 17 x) (rotr 19 x)) (shr 10 x).

(** Round constants: the fractional parts of the cube roots of the first
    sixty-four primes. *)
Definition K : list Z :=
  [ 1116352408; 1899447441; 3049323471; 3921009573; 961987163; 1508970993;
    2453635748; 2870763221; 3624381080; 310598401; 607225278; 1426881987;
    1925078388; 2162078206; 2614888103; 3248222580; 3835390401; 4022224774;
    264347078; 604807628; 770255983; 1249150122; 1555081692; 1996064986;
    2554220882; 2821834349; 2952996808; 3210313671; 3336571891; 3584528711;
    113926993; 338241895; 666307205; 773529912; 1294757372; 1396182291;
    1695183700; 1986661051; 2177026350; 2456956037; 2730485921; 2820302411;
    3259730800; 3345764771; 3516065817; 3600352804; 4094571909; 275423344;
    430227734; 506948616; 659060556; 883997877; 958139571; 1322822218;
    1537002063; 1747873779; 1955562222; 2024104815; 2227730452; 2361852424;
    2428436474; 2756734187; 3204031479; 3329325298 ].

(** The eight chaining words. *)
Record state := State { ha : Z; hb : Z; hc : Z; hd : Z; he : Z; hf : Z; hg : Z; hh : Z }.

Definition initial : state :=
  State 1779033703 3144134277 1013904242 2773480762
        1359893119 2600822924 528734635 1541459225.

(** Padding: the byte 0x80, zeros up to 56 modulo 64, the bit length on
    eight bytes, most significant first. *)
Definition be_bytes (n : nat) (x : Z) : list Z :=
  map (fun i => Z.shiftr x (8 * Z.of_nat i) mod 256) (rev (seq 0 n)).

Definition pad (m : list Z) : list Z :=
  let len := Z.of_nat (length m) in
  m ++ [128] ++ repeat 0 (Z.to_nat ((55 - len) mod 64)) ++ be_bytes 8 (8 * len).

Fixpoint be_word (bs : list Z) (acc : Z) : Z :=
  match bs with
  | [] => acc
  | b :: r => be_word r (acc * 256 + b)
  end.

Fixpoint words (n : nat) (bs : list Z) : list Z :=
  match n with
  | O => []
  | S n' => be_word (firstn 4 bs) 0 :: words n' (skipn 4 bs)
  end.

Fixpoint schedule (n : nat) (w : list Z) : list Z :=
  match n with
  | O => w
  | S n' =>
      let t := length w in
      let x i := nth (t - i) w 0 in
      schedule n' (w ++ [add (add (sig1 (x 2%nat)) (x 7%nat))
                             (add (sig0 (x 15%nat)) (x 16%nat))])
  end.

Definition round (s : state) (kw : Z * Z) : state :=
  let t1 := add (add (add (hh s) (Sum1 (he s))) (add (Ch (he s) (hf s) (hg s)) (fst kw))) (snd kw) in
  let t2 := add (Sum0 (ha s)) (Maj (ha s) (hb s) (hc s)) in
  State (add t1 t2) (ha s) (hb s) (hc s) (add (hd s) t1) (he s) (hf s) (hg s).

Definition compress (s : state) (block : list Z) : state :=
  let w := schedule 48 (words 16 block) in
  let r := fold_left round (combine K w) s in
  State (add (ha s) (ha r)) (add (hb s) (hb r)) (add (hc s) (hc r)) (add (hd s) (hd r))
        (add (he s) (he r)) (add (hf s) (hf r)) (add (hg s) (hg r)) (add (hh s) (hh r)).

Fixpoint blocks (n : nat) (s : state) (bs : list Z) : state :=
  match n with
  | O => s
  | S n' => blocks n' (compress s (firstn 64 bs)) (skipn 64 bs)
  end.

Definition digest_bytes (s : state) : list Z :=
  be_bytes 4 (ha s) ++ be_bytes 4 (hb s) ++ be_bytes 4 (hc s) ++ be_bytes 4 (hd s) ++
  be_bytes 4 (he s) ++ be_bytes 4 (hf s) ++ be_bytes 4 (hg s) ++ be_bytes 4 (hh s).

Definition hash (m : list Z) : list Z :=
  let p := pad m in
  digest_bytes (blocks (length p / 64) initial p).

End SHA256.

(** ** The PHP built-ins of the signature check *)

(** [hash_hmac('sha256', $data, $key, true)]: HMAC (RFC 2104) over SHA-256,
    raw output. *)
Definition hmac_block_key (key : list Z) : list Z :=
  let k := if (64 <? length key)%nat then SHA256.hash key else key in
  k ++ repeat 0 (64 - length k)%nat.

Definition hash_hmac_sha256 (data key : string) : string :=
  let k := hmac_block_key (Bytes.of_string key) in
  let inner := SHA256.hash (map (Z.lxor 54) k ++ Bytes.of_string data) in
  Bytes.to_string (SHA256.hash (map (Z.lxor 92) k ++ inner)).

(** [base64_encode]. *)
Definition base64_alphabet : list ascii :=
  list_ascii_of_string "ABCDEFGHIJKLMNOPQRSTUVWXYZabcdefghijklmnopqrstuvwxyz0123456789+/".

Definition base64_char (i : Z) : ascii := nth (Z.to_nat i) base64_alphabet "="%char.

Fixpoint base64_groups (bs : list Z) : list ascii :=
  match bs with
  | [] => []
  | [a] =>
      [base64_char (a / 4); base64_char (a mod 4 * 16); "="%char; "="%char]
  | [a; b] =>
      [base64_char (a / 4); base64_char (a mod 4 * 16 + b / 16);
       base64_char (b mod 16 * 4); "="%char]
  | a :: b :: c :: r =>
      base64_char (a / 4) :: base64_char (a mod 4 * 16 + b / 16) ::
      base64_char (b mod 16 * 4 + c / 64) :: base64_char (c mod 64) :: base64_groups r
  end.

Definition base64_encode (s : string) : string :=
  string_of_list_ascii (base64_groups (Bytes.of_string s)).

(** [hash_equals]: a comparison in constant time; its result is string
    equality. *)
Definition hash_equals (known user : string) : bool := String.eqb known user.

Definition hex_digit (i : Z) : ascii := nth (Z.to_nat i) (list_ascii_of_string "0123456789abcdef") "?"%char.
Definition bin2hex (s : string) : string :=
  string_of_list_ascii
    (flat_map (fun b => [hex_digit (b / 16); hex_digit (b mod 16)]) (Bytes.of_string s)).

(** ** PHP values, as [json_decode] and the request input yield them *)

(** A float is carried by what the two casts that the program applies give
    for it: [(int)] and [(string)]. *)
Record php_float := PhpFloat { float_int : Z; float_str : string }.

#[local] Set Warnings "-register-all".
Inductive pval :=
| PNull
| PBool (b : bool)
| PInt (z : Z)
| PFloat (f : php_float)
| PString (s : string)
| PArray (l : list (string * pval)).

(** A PHP array: ordered, keyed by strings (an integer key is its decimal
    numeral). *)
Abbreviation parray := (list (string * pval)).

Fixpoint array_get (k : string) (a : parray) : option pval :=
  match a with
  | [] => None
  | (k', v) :: r => if String.eqb k k' then Some v else array_get k r
  end.

(** [$a[k] ?? d]: the default when the key is absent or holds null. *)
Definition coalesce (o : option pval) (d : pval) : pval :=
  match o with
  | Some PNull | None => d
  | Some v => v
  end.

(** [$a[k]] on a value that may not be an array: null when there is no such
    element. *)
Definition index (v : pval) (k : string) : pval :=
  match v with
  | PArray a => default PNull (array_get k a)
  | _ => PNull
  end.

(** The built-ins whose definition lies outside the repository: the JSON
    decoder (with [assoc = true]; null on malformed text) and the conversion
    of a string to an integer. *)
Class PhpRuntime := {
  json_decode : pval -> pval;
  string_to_int : string -> Z
}.

(** [(string) $v]. *)
Definition strval (v : pval) : string :=
  match v with
  | PNull => ""
  | PBool true => "1"
  | PBool false => ""
  | PInt z => pretty z
  | PFloat f => float_str f
  | PString s => s
  | PArray _ => "Array"
  end.

(** [(int) $v]. *)
Definition intval `{PhpRuntime} (v : pval) : Z :=
  match v with
  | PNull => 0
  | PBool true => 1
  | PBool false => 0
  | PInt z => z
  | PFloat f => float_int f
  | PString s => string_to_int s
  | PArray [] => 0
  | PArray (_ :: _) => 1
  end.

(** Truth of a string in a condition, [if ($s)] and [$s ?: null]: the empty
    string and "0" are false. *)
Definition truthy (s : string) : bool :=
  negb (String.eqb s "") && negb (String.eqb s "0").

Definition or_null (s : string) : option string :=
  if truthy s then Some s else None.

(** [$v == $w] for a string [$w] that is not numeric and not empty (PHP 8):
    null counts as the empty string, a boolean is compared with the truth of
    [$w], a number with its numeral, an array is never equal. *)
Definition loose_eq_word (v : pval) (w : string) : bool :=
  match v with
  | PNull => false
  | PBool b => b
  | PInt _ => false
  | PFloat _ => false
  | PString s => String.eqb s w
  | PArray _ => false
  end.

(** [in_array($v, $words)], without the strict flag. *)
Definition in_array (v : pval) (words : list string) : bool :=
  existsb (loose_eq_word v) words.

(** [explode('.', $key)]. *)
Fixpoint explode_dot (s : string) (cur : string) : list string :=
  match s with
  | EmptyString => [cur]
  | String c r =>
      if Ascii.eqb c "."%char then cur :: explode_dot r ""
      else explode_dot r (cur +:+ String c "")
  end.

Fixpoint data_get_path (target : pval) (path : list string) (dflt : pval) : pval :=
  match path with
  | [] => target
  | seg :: rest =>
      match target with
      | PArray a =>
          match array_get seg a with
          | Some v => data_get_path v rest dflt
          | None => dflt
          end
      | _ => dflt
      end
  end.

(** Laravel's [data_get($target, $key, $default)] with a dotted key. *)
Definition data_get (target : pval) (key : string) (dflt : pval) : pval :=
  data_get_path target (explode_dot key "") dflt.

(** ** HTTP responses *)

Module Response.
Record t := Make { status : Z; body : string }.

Definition successful (r : t) : bool := (200 <=? status r) && (status r <? 300).
Definition serverError (r : t) : bool := 500 <=? status r.
Definition clientError (r : t) : bool := (400 <=? status r) && (status r <? 500).
Definition failed (r : t) : bool := serverError r || clientError r.
Definition json `{PhpRuntime} (r : t) : pval := json_decode (PString (body r)).
End Response.

(** ** The stores *)

Inductive model_class := Contact | Property.

Module Note.
Record t := Make {
  notable_type : model_class;
  notable_id : positive;
  type : string;
  title : string;
  body : option string;
  conversation_id : option string;
  recording_path : option string;
  transcript_path : option string;
  meta_raw : parray
}.
End Note.

(** A row of [contact_property], with the columns the job writes. *)
Module Pivot.
Record t := Make {
  interest_level : pval;
  interest_score : Z;
  last_contacted_at : Z;
  last_conversation_id : string
}.
End Pivot.

(** The relational store (the four tables; primary keys are auto-increment,
    hence positive), the object store, the log, and the trace of the exchanges
    with the reasoning service: the prompts posted and the seconds slept. *)
Record world := World {
  contacts : gset positive;
  properties : gset positive;
  contact_property : gmap (positive * positive) Pivot.t;
  notes : list Note.t;
  disk : gmap string string;
  warnings : list string;
  requests : list string;
  sleeps : list Z
}.

(** What a run of the job sees of the outside: the date and the clock, the
    answer of a recording URL (none when the transfer throws), and the answer
    of the reasoning service to the request of each rank. The runs described
    are those in which the reasoning service answers every request; a request
    that throws is part of [OpenAIService] further down. *)
Record env := Env {
  today : string;
  now : Z;
  http_get : string -> option Response.t;
  reasoning : nat -> Response.t
}.

(** State passing. *)
Definition M (A : Type) : Type := world -> A * world.
Definition ret {A} (a : A) : M A := fun w => (a, w).
Definition bind {A B} (m : M A) (k : A -> M B) : M B :=
  fun w => let (a, w') := m w in k a w'.

Notation "'do' x <- m ;; k" := (bind m (fun x => k))
  (at level 10, x name, m at level 99, k at level 200).
Notation "'run' m ;; k" := (bind m (fun _ => k))
  (at level 10, m at level 99, k at level 200).

Definition Storage_put (path contents : string) : M unit := fun w =>
  (tt, World (contacts w) (properties w) (contact_property w) (notes w)
             (<[path := contents]> (disk w)) (warnings w) (requests w) (sleeps w)).

Definition Log_warning (msg : string) : M unit := fun w =>
  (tt, World (contacts w) (properties w) (contact_property w) (notes w)
             (disk w) (warnings w ++ [msg]) (requests w) (sleeps w)).

Definition Note_create (n : Note.t) : M unit := fun w =>
  (tt, World (contacts w) (properties w) (contact_property w) (notes w ++ [n])
             (disk w) (warnings w) (requests w) (sleeps w)).

Definition sleep (seconds : Z) : M unit := fun w =>
  (tt, World (contacts w) (properties w) (contact_property w) (notes w)
             (disk w) (warnings w) (requests w) (sleeps w ++ [seconds])).

(** [Contact::find($id)] and [Property::find($id)]. *)
Definition find_in (table : gset positive) (id : Z) : option positive :=
  match id with
  | Zpos p => if decide (p ∈ table) then Some p else None
  | _ => None
  end.

Definition Contact_find (id : Z) : M (option positive) := fun w => (find_in (contacts w) id, w).
Definition Property_find (id : Z) : M (option positive) := fun w => (find_in (properties w) id, w).

(** The request of rank [n] is answered by [reasoning e n]: a request that
    gets a response. [OpenAIService.post] is the request that may also throw. *)
Definition Http_post (e : env) (prompt : string) : M Response.t := fun w =>
  (reasoning e (length (requests w)),
   World (contacts w) (properties w) (contact_property w) (notes w)
         (disk w) (warnings w) (requests w ++ [prompt]) (sleeps w)).

Inductive outcome := Completed | Thrown (exception : string).

(** The property of a row that the contact already has for [$propertyId]. *)
Definition attached (rows : gmap (positive * positive) Pivot.t) (contact : positive) (id : Z)
  : option positive :=
  match id with
  | Zpos p => if decide (is_Some (rows !! (contact, p))) then Some p else None
  | _ => None
  end.

(** [$contact->properties()->syncWithoutDetaching([$propertyId => $attributes])]:
    the row of the pair is updated when the contact has one; otherwise a row
    is inserted, and the foreign key of [contact_property] refuses a property
    that does not exist. *)
Definition syncWithoutDetaching (contact : positive) (propertyId : Z) (attributes : Pivot.t)
  : M outcome := fun w =>
  let write p :=
    World (contacts w) (properties w) (<[(contact, p) := attributes]> (contact_property w))
          (notes w) (disk w) (warnings w) (requests w) (sleeps w) in
  match attached (contact_property w) contact propertyId with
  | Some p => (Completed, write p)
  | None =>
      match find_in (properties w) propertyId with
      | Some p => (Completed, write p)
      | None => (Thrown "QueryException", w)
      end
  end.

(** ** app/Services/OpenAIService.php *)

Definition LF : string := String "010"%char EmptyString.

Definition prompt_of (summary : string) : string :=
  "Classify the lead's interest level for a real-estate listing as one of: unknown, cold, warm, hot. "
  +:+ "Also provide an integer score 0-100. Return strict JSON with keys: interest_level, interest_score, rationale."
  +:+ LF +:+ LF +:+ "Summary:" +:+ LF +:+ summary.

Definition backoff : list Z := [1; 2; 4].

Definition interest_levels : list string := ["unknown"; "cold"; "warm"; "hot"].

(** The array returned when the exchange has failed. *)
Definition analysis_failed : parray :=
  [("interest_level", PString "unknown"); ("interest_score", PInt 0);
   ("rationale", PString "analysis_failed")].

Section Service.
Context `{PhpRuntime}.

(** The [foreach ($backoff as $i => $delay)] loop; [resp] is [$resp]. *)
Fixpoint attempts (e : env) (prompt : string) (delays : list Z) (resp : option Response.t)
  : M (option Response.t) :=
  match delays with
  | [] => ret resp
  | delay :: rest =>
      do r <- Http_post e prompt ;;
      if Response.successful r then ret (Some r)
      else if (500 <=? Response.status r) || (Response.status r =? 429) then
        run sleep delay ;; attempts e prompt rest (Some r)
      else ret (Some r)
  end.

(** The part after the loop, on a response that has not failed. *)
Definition interpret (r : Response.t) : parray :=
  let content := data_get (Response.json r) "choices.0.message.content" PNull in
  let parsed := json_decode content in
  let level :=
    if in_array (data_get parsed "interest_level" PNull) interest_levels
    then index parsed "interest_level" else PString "unknown" in
  let score := Z.max 0 (Z.min 100 (intval (data_get parsed "interest_score" (PInt 0)))) in
  let rationale := strval (data_get parsed "rationale" (PString "")) in
  [("level", level); ("score", PInt score); ("rationale", PString rationale)].

(** [if (!$resp || $resp->failed())] and what follows. *)
Definition conclude (resp : option Response.t) : parray :=
  match resp with
  | None => analysis_failed
  | Some r => if Response.failed r then analysis_failed else interpret r
  end.

Definition analyzeCallSummaryForInterestLevel (e : env) (summary : string) : M parray :=
  do resp <- attempts e (prompt_of summary) backoff None ;;
  ret (conclude resp).

(** ** app/Jobs/ProcessElevenLabsWebhook.php *)

(** [(string) ($data[$k] ?? '')] and [(int) ($data[$k] ?? 0)]. *)
Definition input_string (data : parray) (k : string) : string :=
  strval (coalesce (array_get k data) (PString "")).
Definition input_int (data : parray) (k : string) : Z :=
  intval (coalesce (array_get k data) (PInt 0)).

Definition handle (e : env) (data : parray) : M outcome :=
  let conversationId := input_string data "conversation_id" in
  let summary := input_string data "summary" in
  let transcript := input_string data "transcript" in
  let recordingUrl := input_string data "recording_url" in
  let contactId := input_int data "contact_id" in
  let propertyId := input_int data "property_id" in
  (* Persist transcript *)
  do transcriptPath <-
    (if truthy transcript then
       let path := "calls/" +:+ today e +:+ "/" +:+ conversationId +:+ "-transcript.txt" in
       run Storage_put path transcript ;; ret (Some path)
     else ret None) ;;
  (* Download recording to S3 *)
  do recordingPath <-
    (if truthy recordingUrl then
       match http_get e recordingUrl with
       | Some resp =>
           if Response.successful resp then
             let path := "calls/" +:+ today e +:+ "/" +:+ conversationId +:+ "-recording.mp3" in
             run Storage_put path (Response.body resp) ;; ret (Some path)
           else ret None
       | None => run Log_warning "Recording download failed" ;; ret None
       end
     else ret None) ;;
  (* Create Note *)
  do contact <- Contact_find contactId ;;
  do notable <-
    (match contact with
     | Some c => ret (Some (Contact, c))
     | None =>
         do property <- Property_find propertyId ;;
         ret (option_map (fun p => (Property, p)) property)
     end) ;;
  run (match notable with
       | Some (class, id) =>
           Note_create
             {| Note.notable_type := class;
                Note.notable_id := id;
                Note.type := "call_summary";
                Note.title := "AI Call Summary";
                Note.body := or_null summary;
                Note.conversation_id := or_null conversationId;
                Note.recording_path := recordingPath;
                Note.transcript_path := transcriptPath;
                Note.meta_raw := data |}
       | None => ret tt
       end) ;;
  (* Interest analysis *)
  do analysis <- analyzeCallSummaryForInterestLevel e summary ;;
  let level := coalesce (array_get "level" analysis) (PString "unknown") in
  let score := intval (coalesce (array_get "score" analysis) (PInt 0)) in
  if negb (contactId =? 0) && negb (propertyId =? 0) then
    do contact <- Contact_find contactId ;;
    match contact with
    | Some c =>
        syncWithoutDetaching c propertyId
          {| Pivot.interest_level := level;
             Pivot.interest_score := score;
             Pivot.last_contacted_at := now e;
             Pivot.last_conversation_id := conversationId |}
    | None => ret Completed
    end
  else ret Completed.

End Service.

(** ** app/Http/Controllers/ElevenLabsController.php *)

Record Request := {
  header : string -> option string;
  getContent : string;
  all : parray
}.

(** [config('services.elevenlabs.webhook_secret')]. *)
Record config := { elevenlabs_webhook_secret : string }.

Inductive reply :=
| Json (data : parray)
| Abort (code : Z).

(** The queue holds the payloads of the jobs dispatched and not yet run. *)
Definition dispatch (payload : parray) (queue : list parray) : list parray :=
  queue ++ [payload].

(** [verifySignature]: the code of the abort, none when the check passes. *)
Definition verifySignature (cfg : config) (request : Request) : option Z :=
  let secret := elevenlabs_webhook_secret cfg in
  let sig := header request "X-ElevenLabs-Signature" in
  let payload := getContent request in
  let calc := base64_encode (hash_hmac_sha256 payload secret) in
  if hash_equals calc (default "" sig) then None else Some 401.

Definition handleWebhook (cfg : config) (request : Request) (queue : list parray)
  : reply * list parray :=
  match verifySignature cfg request with
  | Some code => (Abort code, queue)
  | None => (Json [("status", PString "accepted")], dispatch (all request) queue)
  end.

(** ** A runtime to run the code on concrete requests

    The properties below hold for every [PhpRuntime]. To evaluate the code on
    concrete inputs, here is a decoder for the JSON texts without fractions,
    exponents and [\u] escapes, and the conversion of a numeral to an integer.
    On a text with a fraction, an exponent or a [\u] escape this decoder gives
    null, which is not what PHP gives; the concrete inputs of this file avoid
    them. *)

Module Json.

Definition dquote : ascii := "034"%char.
Definition backslash : ascii := "092"%char.

Definition is_space (c : ascii) : bool :=
  Ascii.eqb c " "%char || Ascii.eqb c "009"%char || Ascii.eqb c "010"%char || Ascii.eqb c "013"%char.

Definition digit (c : ascii) : option Z :=
  let n := Z.of_N (N_of_ascii c) in
  if (48 <=? n) && (n <=? 57) then Some (n - 48) else None.

Fixpoint skip_space (s : list ascii) : list ascii :=
  match s with
  | c :: r => if is_space c then skip_space r else s
  | [] => []
  end.

Definition unescape (c : ascii) : option ascii :=
  if Ascii.eqb c dquote then Some dquote
  else if Ascii.eqb c backslash then Some backslash
  else if Ascii.eqb c "/"%char then Some "/"%char
  else if Ascii.eqb c "n"%char then Some "010"%char
  else if Ascii.eqb c "r"%char then Some "013"%char
  else if Ascii.eqb c "t"%char then Some "009"%char
  else if Ascii.eqb c "b"%char then Some "008"%char
  else if Ascii.eqb c "f"%char then Some "012"%char
  else None.

(** After the opening quote: the characters up to the closing quote. *)
Fixpoint string_body (s : list ascii) (acc : list ascii) : option (string * list ascii) :=
  match s with
  | [] => None
  | c :: r =>
      if Ascii.eqb c dquote then Some (string_of_list_ascii (rev acc), r)
      else if Ascii.eqb c backslash then
        match r with
        | x :: r' =>
            match unescape x with
            | Some u => string_body r' (u :: acc)
            | None => None
            end
        | [] => None
        end
      else string_body r (c :: acc)
  end.

Fixpoint digits (s : list ascii) (acc : Z) : Z * list ascii :=
  match s with
  | c :: r =>
      match digit c with
      | Some d => digits r (acc * 10 + d)
      | None => (acc, s)
      end
  | [] => (acc, [])
  end.

Definition starts_number (s : list ascii) : bool :=
  match s with
  | c :: _ => match digit c with Some _ => true | None => false end
  | [] => false
  end.

Definition ends_integer (s : list ascii) : bool :=
  match s with
  | c :: _ => negb (Ascii.eqb c "."%char || Ascii.eqb c "e"%char || Ascii.eqb c "E"%char)
  | [] => true
  end.

Definition number (s : list ascii) : option (pval * list ascii) :=
  let (neg, s') :=
    match s with
    | c :: r => if Ascii.eqb c "-"%char then (true, r) else (false, s)
    | [] => (false, s)
    end in
  if starts_number s' then
    let (n, r) := digits s' 0 in
    if ends_integer r then Some (PInt (if neg then - n else n), r) else None
  else None.

(** [$a[$k] = $v]. *)
Fixpoint array_set (k : string) (v : pval) (a : parray) : parray :=
  match a with
  | [] => [(k, v)]
  | (k', v') :: r => if String.eqb k k' then (k, v) :: r else (k', v') :: array_set k v r
  end.

Definition literal (word : string) (v : pval) (s : list ascii) : option (pval * list ascii) :=
  let w := list_ascii_of_string word in
  if decide (firstn (length w) s = w) then Some (v, skipn (length w) s) else None.

Fixpoint value (fuel : nat) (s : list ascii) : option (pval * list ascii) :=
  match fuel with
  | O => None
  | S fuel' =>
      match skip_space s with
      | [] => None
      | c :: r =>
          if Ascii.eqb c "{"%char then
            match skip_space r with
            | c' :: r' =>
                if Ascii.eqb c' "}"%char then Some (PArray [], r')
                else members fuel' (c' :: r') []
            | [] => None
            end
          else if Ascii.eqb c "["%char then
            match skip_space r with
            | c' :: r' =>
                if Ascii.eqb c' "]"%char then Some (PArray [], r')
                else elements fuel' (c' :: r') []
            | [] => None
            end
          else if Ascii.eqb c dquote then
            match string_body r [] with
            | Some (str, r') => Some (PString str, r')
            | None => None
            end
          else if Ascii.eqb c "t"%char then literal "true" (PBool true) (c :: r)
          else if Ascii.eqb c "f"%char then literal "false" (PBool false) (c :: r)
          else if Ascii.eqb c "n"%char then literal "null" PNull (c :: r)
          else number (c :: r)
      end
  end
with members (fuel : nat) (s : list ascii) (acc : parray) : option (pval * list ascii) :=
  match fuel with
  | O => None
  | S fuel' =>
      match skip_space s with
      | c :: r =>
          if Ascii.eqb c dquote then
            match string_body r [] with
            | Some (k, r') =>
                match skip_space r' with
                | c' :: r'' =>
                    if Ascii.eqb c' ":"%char then
                      match value fuel' r'' with
                      | Some (v, rest) =>
                          match skip_space rest with
                          | d :: rest' =>
                              if Ascii.eqb d ","%char then members fuel' rest' (array_set k v acc)
                              else if Ascii.eqb d "}"%char then Some (PArray (array_set k v acc), rest')
                              else None
                          | [] => None
                          end
                      | None => None
                      end
                    else None
                | [] => None
                end
            | None => None
            end
          else None
      | [] => None
      end
  end
with elements (fuel : nat) (s : list ascii) (acc : parray) : option (pval * list ascii) :=
  match fuel with
  | O => None
  | S fuel' =>
      match value fuel' s with
      | Some (v, rest) =>
          let acc' := acc ++ [(pretty (Z.of_nat (length acc)), v)] in
          match skip_space rest with
          | d :: rest' =>
              if Ascii.eqb d ","%char then elements fuel' rest' acc'
              else if Ascii.eqb d "]"%char then Some (PArray acc', rest')
              else None
          | [] => None
          end
      | None => None
      end
  end.

Definition decode_text (text : string) : pval :=
  let s := list_ascii_of_string text in
  match value (2 * length s + 2) s with
  | Some (v, rest) =>
      match skip_space rest with
      | [] => v
      | _ :: _ => PNull
      end
  | None => PNull
  end.

(** The decoder applied to a value: PHP converts a scalar argument to a
    string. An array is no argument for [json_decode], which raises TypeError
    on it: [OpenAIService.conclude] has that case, and no array is decoded in
    this file. *)
Definition decode (v : pval) : pval := decode_text (strval v).

(** A JSON text of a value, to write the bodies of the examples. *)
Definition quoted (s : string) : string :=
  let esc c :=
    if Ascii.eqb c dquote then [backslash; dquote]
    else if Ascii.eqb c backslash then [backslash; backslash]
    else if Ascii.eqb c "010"%char then [backslash; "n"%char]
    else [c] in
  string_of_list_ascii ([dquote] ++ flat_map esc (list_ascii_of_string s) ++ [dquote]).

Definition is_list (a : parray) : bool :=
  forallb (fun '(i, (k, _)) => String.eqb k (pretty (Z.of_nat i)))
          (combine (seq 0 (length a)) a).

Fixpoint text (v : pval) : string :=
  match v with
  | PNull => "null"
  | PBool true => "true"
  | PBool false => "false"
  | PInt z => pretty z
  | PFloat f => float_str f
  | PString s => quoted s
  | PArray a =>
      let as_list := is_list a && negb (length a =? 0)%nat in
      let fix items (l : parray) : string :=
        match l with
        | [] => ""
        | (k, x) :: r =>
            (if as_list then "" else quoted k +:+ ":") +:+ text x
            +:+ (match r with [] => "" | _ :: _ => "," end) +:+ items r
        end in
      (if as_list then "[" else "{") +:+ items a +:+ (if as_list then "]" else "}")
  end.

(** The white space that a numeric string may start with. *)
Definition is_numeric_space (c : ascii) : bool :=
  is_space c || Ascii.eqb c "011"%char || Ascii.eqb c "012"%char.

Fixpoint skip_blank (s : list ascii) : list ascii :=
  match s with
  | c :: r => if is_numeric_space c then skip_blank r else s
  | [] => []
  end.

(** The digits of a fraction, appended to the mantissa [acc]; [len] counts
    them. *)
Fixpoint fraction (s : list ascii) (acc len : Z) : Z * Z * list ascii :=
  match s with
  | c :: r =>
      match digit c with
      | Some d => fraction r (acc * 10 + d) (len + 1)
      | None => (acc, len, s)
      end
  | [] => (acc, len, [])
  end.

(** The exponent part: a letter e, an optional sign and at least one digit;
    zero when there is none. *)
Definition exponent (s : list ascii) : Z :=
  match s with
  | c :: r =>
      if Ascii.eqb c "e"%char || Ascii.eqb c "E"%char then
        match r with
        | x :: r' =>
            if Ascii.eqb x "-"%char then (if starts_number r' then - fst (digits r' 0) else 0)
            else if Ascii.eqb x "+"%char then (if starts_number r' then fst (digits r' 0) else 0)
            else if starts_number r then fst (digits r 0) else 0
        | [] => 0
        end
      else 0
  | [] => 0
  end.

(** The numeral at the head of [s], without its sign, truncated to an
    integer: digits, an optional fraction and an optional exponent, or a
    fraction that starts with the point. *)
Definition magnitude (s : list ascii) : Z :=
  let scaled (m len : Z) (rest : list ascii) : Z :=
    let p := exponent rest - len in
    if 0 <=? p then m * 10 ^ p else m / 10 ^ (- p) in
  if starts_number s then
    let (m, r) := digits s 0 in
    match r with
    | c :: r' =>
        if Ascii.eqb c "."%char then let '(m', len, rest) := fraction r' m 0 in scaled m' len rest
        else scaled m 0 r
    | [] => m
    end
  else
    match s with
    | c :: r =>
        if Ascii.eqb c "."%char && starts_number r
        then let '(m, len, rest) := fraction r 0 0 in scaled m len rest
        else 0
    | [] => 0
    end.

(** [(int) $s] for a string: the numeral that the string starts with, after
    white space and a sign, truncated towards zero and kept within the 64-bit
    integers; zero when the string starts with no numeral. The value of a
    numeral with a fraction or an exponent is computed exactly here, where PHP
    goes through a double. *)
Definition to_int (s : string) : Z :=
  let v :=
    match skip_blank (list_ascii_of_string s) with
    | c :: r =>
        if Ascii.eqb c "-"%char then - magnitude r
        else if Ascii.eqb c "+"%char then magnitude r
        else magnitude (c :: r)
    | [] => 0
    end in
  Z.max (- 2 ^ 63) (Z.min (2 ^ 63 - 1) v).

End Json.

#[export] Instance php_runtime : PhpRuntime :=
  {| json_decode := Json.decode; string_to_int := Json.to_int |}.

Definition example_object : pval :=
  PArray [("interest_level", PString "hot"); ("interest_score", PInt 88);
          ("tags", PArray [("0", PString "a/b"); ("1", PNull); ("2", PBool true)]);
          ("nested", PArray [("k", PInt (-5))])].


(** ** Definitions used by the statements *)

(** The signature that [verifySignature] computes for a request. *)
Definition expected_signature (cfg : config) (request : Request) : string :=
  base64_encode (hash_hmac_sha256 (getContent request) (elevenlabs_webhook_secret cfg)).

(** The world after [k] requests with the prompt [p] and the sleeps [sl]. *)
Definition spoken (w : world) (p : string) (k : nat) (sl : list Z) : world :=
  World (contacts w) (properties w) (contact_property w) (notes w) (disk w) (warnings w)
        (requests w ++ repeat p k) (sleeps w ++ sl).

(** The retry loop as a function of the rank [n] of its first request: the
    response kept, the number of requests and the sleeps. *)
Fixpoint exchange (e : env) (delays : list Z) (n : nat) (resp : option Response.t)
  : option Response.t * (nat * list Z) :=
  match delays with
  | [] => (resp, (O, []))
  | delay :: rest =>
      let r := reasoning e n in
      if Response.successful r then (Some r, (1%nat, []))
      else if (500 <=? Response.status r) || (Response.status r =? 429) then
        let '(x, (k, sl)) := exchange e rest (S n) (Some r) in (x, (S k, delay :: sl))
      else (Some r, (1%nat, []))
  end.

(** The result, the requests and the sleeps of a call of the client, from the
    rank of its first request. *)
Definition verdict `{PhpRuntime} (e : env) (n : nat) : parray :=
  conclude (fst (exchange e backoff n None)).
Definition posts (e : env) (n : nat) : nat := fst (snd (exchange e backoff n None)).
Definition pauses (e : env) (n : nat) : list Z := snd (snd (exchange e backoff n None)).

(** The interest level and the score of a result of the client, under the
    keys of either of its two return statements. *)
Definition result_level (analysis : parray) : pval :=
  match array_get "interest_level" analysis with
  | Some v => v
  | None => default PNull (array_get "level" analysis)
  end.

Definition result_score `{PhpRuntime} (analysis : parray) : Z :=
  match array_get "interest_score" analysis with
  | Some v => intval v
  | None => intval (default PNull (array_get "score" analysis))
  end.

(** The object-store keys of a conversation. *)
Definition transcript_key (e : env) (conversationId : string) : string :=
  "calls/" +:+ today e +:+ "/" +:+ conversationId +:+ "-transcript.txt".
Definition recording_key (e : env) (conversationId : string) : string :=
  "calls/" +:+ today e +:+ "/" +:+ conversationId +:+ "-recording.mp3".

(** The notes that carry a conversation identifier. *)
Definition notes_of (conversationId : string) (w : world) : list Note.t :=
  filter (fun n => Note.conversation_id n = Some conversationId) (notes w).

(** *** A run of the job, stage by stage

    What [handle] leaves in each store, written as functions of the event and
    of the world it starts from; [handle_stages] below proves that the job
    computes them. *)

Section Stages.
Context `{PhpRuntime}.

(** The key under which the transcript is stored, if it is. *)
Definition kept_transcript (e : env) (data : parray) : option string :=
  if truthy (input_string data "transcript")
  then Some (transcript_key e (input_string data "conversation_id")) else None.

(** The key and the content of the recording stored, if one is. *)
Definition kept_recording (e : env) (data : parray) : option (string * string) :=
  if truthy (input_string data "recording_url") then
    match http_get e (input_string data "recording_url") with
    | Some resp =>
        if Response.successful resp
        then Some (recording_key e (input_string data "conversation_id"), Response.body resp)
        else None
    | None => None
    end
  else None.

Definition download_warnings (e : env) (data : parray) : list string :=
  if truthy (input_string data "recording_url") then
    match http_get e (input_string data "recording_url") with
    | Some _ => []
    | None => ["Recording download failed"]
    end
  else [].

(** The record that owns the note: [$notable]. *)
Definition notable (data : parray) (w : world) : option (model_class * positive) :=
  match find_in (contacts w) (input_int data "contact_id") with
  | Some c => Some (Contact, c)
  | None => option_map (fun p => (Property, p)) (find_in (properties w) (input_int data "property_id"))
  end.

Definition call_note (e : env) (data : parray) (owner : model_class * positive) : Note.t :=
  {| Note.notable_type := fst owner;
     Note.notable_id := snd owner;
     Note.type := "call_summary";
     Note.title := "AI Call Summary";
     Note.body := or_null (input_string data "summary");
     Note.conversation_id := or_null (input_string data "conversation_id");
     Note.recording_path := option_map fst (kept_recording e data);
     Note.transcript_path := kept_transcript e data;
     Note.meta_raw := data |}.

(** The attributes written on the pivot row, from the result [analysis] of
    the client. *)
Definition association (e : env) (data : parray) (analysis : parray) : Pivot.t :=
  {| Pivot.interest_level := coalesce (array_get "level" analysis) (PString "unknown");
     Pivot.interest_score := intval (coalesce (array_get "score" analysis) (PInt 0));
     Pivot.last_contacted_at := now e;
     Pivot.last_conversation_id := input_string data "conversation_id" |}.

(** The property whose row the contact gets: the one of the row it has, or
    the one found in the table. *)
Definition synced (w : world) (contact : positive) (propertyId : Z) : option positive :=
  match attached (contact_property w) contact propertyId with
  | Some p => Some p
  | None => find_in (properties w) propertyId
  end.

(** The pair whose row is written: both identifiers are non-zero, the
    contact exists, and the property is attached to it or exists. *)
Definition associated (data : parray) (w : world) : option (positive * positive) :=
  if negb (input_int data "contact_id" =? 0) && negb (input_int data "property_id" =? 0) then
    match find_in (contacts w) (input_int data "contact_id") with
    | Some c => option_map (fun p => (c, p)) (synced w c (input_int data "property_id"))
    | None => None
    end
  else None.

(** The run throws when the contact exists and the property identifier,
    non-zero, names no property. *)
Definition job_outcome (data : parray) (w : world) : outcome :=
  if negb (input_int data "contact_id" =? 0) && negb (input_int data "property_id" =? 0) then
    match find_in (contacts w) (input_int data "contact_id") with
    | Some c =>
        match synced w c (input_int data "property_id") with
        | Some _ => Completed
        | None => Thrown "QueryException"
        end
    | None => Completed
    end
  else Completed.

Definition job_world (e : env) (data : parray) (w : world) : world :=
  let n := length (requests w) in
  World (contacts w) (properties w)
        (match associated data w with
         | Some cp => <[cp := association e data (verdict e n)]> (contact_property w)
         | None => contact_property w
         end)
        (notes w ++ match notable data w with
                    | Some owner => [call_note e data owner]
                    | None => []
                    end)
        (let d := match kept_transcript e data with
                  | Some key => <[key := input_string data "transcript"]> (disk w)
                  | None => disk w
                  end in
         match kept_recording e data with
         | Some (key, content) => <[key := content]> d
         | None => d
         end)
        (warnings w ++ download_warnings e data)
        (requests w ++ repeat (prompt_of (input_string data "summary")) (posts e n))
        (sleeps w ++ pauses e n).

End Stages.

(** *** Concrete inputs *)

Definition empty_world : world := World ∅ ∅ ∅ [] ∅ [] [] [].

(** Contact 1 and property 2 exist; nothing else does. *)
Definition crm : world := World {[1%positive]} {[2%positive]} ∅ [] ∅ [] [] [].

Definition chat_completion (content : string) : Response.t :=
  Response.Make 200
    (Json.text
       (PArray [("id", PString "chatcmpl-1");
                ("choices",
                 PArray [("0", PArray [("index", PInt 0);
                                       ("message", PArray [("role", PString "assistant");
                                                           ("content", PString content)])])])])).

(** The reasoning service gives the same answer to every request; no
    recording can be fetched. *)
Definition answering (r : Response.t) : env :=
  Env "2025/01/15" 1736900000 (fun _ => None) (fun _ => r).

Definition classification (level : pval) (score : pval) : Response.t :=
  chat_completion
    (Json.text (PArray [("interest_level", level); ("interest_score", score);
                        ("rationale", PString "asked for an inspection")])).

Definition event_c1 : parray :=
  [("conversation_id", PString "c1"); ("summary", PString "very interested, wants inspection");
   ("contact_id", PInt 1); ("property_id", PInt 2)].



Definition webhook_config : config := {| elevenlabs_webhook_secret := "whsec_sync_assist" |}.

Definition webhook_body : string := Json.text (PArray event_c1).

Definition signed_request (signature : option string) : Request :=
  {| header := fun name => if String.eqb name "X-ElevenLabs-Signature" then signature else None;
     getContent := webhook_body;
     all := event_c1 |}.

(** *** The claims that the code does not meet, as they are stated *)


(** C7 as stated: an empty summary gives the default result and no request
    is issued. *)
Definition answered_without_request `{PhpRuntime} (e : env) (w : world) : Prop :=
  let '(analysis, w') := analyzeCallSummaryForInterestLevel e "" w in
  result_level analysis = PString "unknown" /\ result_score analysis = 0 /\
  requests w' = requests w.

(** ** More of the guide: the calling service, the client-data endpoint,
    the Livewire component and the accessors of the note *)

(** *** PHP built-ins *)

(** [(bool) $v], the truth of a value in [if ($v)], [empty($v)] and
    [Collection::filter()]. The float zero prints as 0 or -0. *)
Definition to_bool (v : pval) : bool :=
  match v with
  | PNull => false
  | PBool b => b
  | PInt z => negb (z =? 0)
  | PFloat f => negb (String.eqb (float_str f) "0") && negb (String.eqb (float_str f) "-0")
  | PString s => truthy s
  | PArray [] => false
  | PArray (_ :: _) => true
  end.

(** [is_array($v)]. *)
Definition is_array (v : pval) : bool :=
  match v with
  | PArray _ => true
  | _ => false
  end.

(** The characters that [trim] strips: space, tab, line feed, carriage
    return, NUL and vertical tab. *)
Definition is_blank (c : ascii) : bool :=
  Ascii.eqb c " "%char || Ascii.eqb c "009"%char || Ascii.eqb c "010"%char ||
  Ascii.eqb c "013"%char || Ascii.eqb c "000"%char || Ascii.eqb c "011"%char.

Fixpoint ltrim_chars (strip : ascii -> bool) (s : string) : string :=
  match s with
  | String c r => if strip c then ltrim_chars strip r else s
  | EmptyString => EmptyString
  end.

Definition string_rev (s : string) : string :=
  string_of_list_ascii (rev (list_ascii_of_string s)).

Definition rtrim_chars (strip : ascii -> bool) (s : string) : string :=
  string_rev (ltrim_chars strip (string_rev s)).

(** [trim($s)] and [ltrim($s, '0')]. *)
Definition trim (s : string) : string := rtrim_chars is_blank (ltrim_chars is_blank s).
Definition ltrim_zeros (s : string) : string := ltrim_chars (Ascii.eqb "0"%char) s.

(** [Str::startsWith($s, '+')]. *)
Definition starts_with_plus (s : string) : bool :=
  match s with
  | String c _ => Ascii.eqb c "+"%char
  | EmptyString => false
  end.

Definition is_digit (c : ascii) : bool :=
  let n := N_of_ascii c in ((48 <=? n) && (n <=? 57))%N.
Definition is_digit_1_9 (c : ascii) : bool :=
  let n := N_of_ascii c in ((49 <=? n) && (n <=? 57))%N.

(** The digits at the head of a string: how many, and what follows. *)
Fixpoint span_digits (s : string) : nat * string :=
  match s with
  | String c r =>
      if is_digit c then let (n, rest) := span_digits r in (S n, rest) else (O, s)
  | EmptyString => (O, EmptyString)
  end.

(** [preg_match('/^\+?[1-9]\d{7,14}$/', $s) === 1]; the dollar also matches
    before a line feed that ends the subject. *)
Definition matches_e164 (s : string) : bool :=
  let s' := match s with
            | String c r => if Ascii.eqb c "+"%char then r else s
            | EmptyString => s
            end in
  match s' with
  | String d r =>
      is_digit_1_9 d &&
      (let (n, rest) := span_digits r in
       (7 <=? n)%nat && (n <=? 14)%nat && (String.eqb rest EmptyString || String.eqb rest LF))
  | EmptyString => false
  end.

(** [implode($glue, $pieces)]. *)
Fixpoint implode (glue : string) (pieces : list string) : string :=
  match pieces with
  | [] => EmptyString
  | [p] => p
  | p :: r => p +:+ glue +:+ implode glue r
  end.

(** The parts of the framework and of libphonenumber whose definition lies
    outside the repository: [Str::trim], and the parser, the E.164 formatter
    and the validity test of [PhoneNumberUtil]. The parser gives nothing
    when the [try] block throws. *)
Class Laravel := {
  Str_trim : string -> string
}.

Class PhoneNumberUtil := {
  PhoneNumber : Type;
  parse : string -> string -> option PhoneNumber;
  format_E164 : PhoneNumber -> string;
  isValidNumber : PhoneNumber -> bool
}.

(** *** The cache *)

(** An entry holds a value and the time at which it expires. *)
Definition Cache_put (key : string) (value : pval) (expires : Z)
  (cache : gmap string (pval * Z)) : gmap string (pval * Z) :=
  <[key := (value, expires)]> cache.

Definition Cache_get (clock : Z) (key : string) (cache : gmap string (pval * Z)) : pval :=
  match cache !! key with
  | Some (value, expires) => if clock <? expires then value else PNull
  | None => PNull
  end.

(** *** app/Services/ElevenLabsService.php *)

(** [config('services.elevenlabs')], the part the service reads. *)
Record elevenlabs_config := {
  agent_id : pval;
  phone_number_id : pval
}.

(** The cache, the call requests posted to the voice platform, and the
    flashed session messages. *)
Record calls_state := CallsState {
  cache : gmap string (pval * Z);
  placed : list parray;
  flashed : list (string * string)
}.

(** The clock in seconds, the answer of the voice platform to the request of
    each rank (none when the request throws: no connection, or no answer in
    time), and the suffix that [uniqid] gives at each rank. *)
Record calls_env := CallsEnv {
  clock : Z;
  outbound : nat -> option Response.t;
  uniqid : nat -> string
}.

(** What the code can throw: the two exceptions that the service constructs,
    with their message, the exception of the HTTP client on a request that
    gets no response, and the error of PHP on a value that does not fit a
    declared type. *)
Inductive throwable :=
| InvalidArgumentException (message : string)
| RuntimeException (message : string)
| ConnectionException
| TypeError.

Inductive result (A : Type) :=
| Returned (a : A)
| Raised (thrown : throwable).
Arguments Returned {A} a.
Arguments Raised {A} thrown.

Section CallingService.
Context `{PhpRuntime} `{Laravel} `{PhoneNumberUtil}.

Definition cacheKey (conversationId : string) : string :=
  "el_client_data:" +:+ Str_trim conversationId.

Definition formatPhoneNumber (raw : string) (country : string) : string :=
  let raw := trim raw in
  match parse raw country with
  | Some num => format_E164 num
  | None =>
      (* Fallback: ensure starts with + *)
      if starts_with_plus raw then raw else "+" +:+ ltrim_zeros raw
  end.

Definition isValidPhoneNumber (raw : string) (country : string) : bool :=
  match parse raw country with
  | Some num => isValidNumber num
  | None => matches_e164 raw
  end.

(** The declared types are checked as PHP checks them without
    [strict_types]: a scalar given for [string] is converted, an array is
    refused, and the value returned must be an array. *)
Definition initiateOutboundCall (cfg : elevenlabs_config) (e : calls_env) (args : parray)
  (st : calls_state) : result pval * calls_state :=
  let raw := coalesce (array_get "to" args) (PString "") in
  if is_array raw then (Raised TypeError, st)
  else
    let to := formatPhoneNumber (strval raw) "AU" in
    if negb (isValidPhoneNumber to "AU") then
      (Raised (InvalidArgumentException "Invalid phone number"), st)
    else
      let client_data := coalesce (array_get "client_data" args) (PArray []) in
      let payload :=
        [("agent_id", agent_id cfg); ("phone_number_id", phone_number_id cfg);
         ("to", PString to); ("client_data", client_data)] in
      let st1 := CallsState (cache st) (placed st ++ [payload]) (flashed st) in
      match outbound e (length (placed st)) with
      | None => (Raised ConnectionException, st1)
      | Some resp =>
          if Response.failed resp then
            (Raised (RuntimeException
                       ("ElevenLabs call initiation failed: " +:+ Response.body resp)), st1)
          else
            let data := Response.json resp in
            let conversation_id := default PNull (array_get "conversation_id" args) in
            if to_bool conversation_id then
              if is_array conversation_id then (Raised TypeError, st1)
              else
                let st2 :=
                  CallsState (Cache_put (cacheKey (strval conversation_id)) client_data
                                        (clock e + 15 * 60) (cache st1))
                             (placed st1) (flashed st1) in
                (if is_array data then Returned data else Raised TypeError, st2)
            else (if is_array data then Returned data else Raised TypeError, st1)
      end.

End CallingService.

(** *** The records read by the client-data endpoint *)

(** A Carbon date and time, by its fields. *)
Record Carbon := { year : Z; month : Z; day : Z; hour : Z; minute : Z; second : Z }.

Definition zero_padded (width : nat) (z : Z) : string :=
  let s := pretty z in
  string_of_list_ascii (repeat "0"%char (width - String.length s)) +:+ s.

Definition toDateString (c : Carbon) : string :=
  zero_padded 4 (year c) +:+ "-" +:+ zero_padded 2 (month c) +:+ "-" +:+ zero_padded 2 (day c).

Definition toDateTimeString (c : Carbon) : string :=
  toDateString c +:+ " " +:+ zero_padded 2 (hour c) +:+ ":" +:+ zero_padded 2 (minute c)
  +:+ ":" +:+ zero_padded 2 (second c).

Module ContactRow.
Record t := Make {
  id : positive;
  first_name : string;
  email : option string;
  phone : string;
  country_code : string
}.
End ContactRow.

Module PropertyRow.
Record t := Make {
  id : positive;
  address : string;
  bedrooms : option Z;
  bathrooms : option Z;
  carspaces : option Z;
  price : option Z;
  listing_type : string;
  rental_period : option string;
  headline : option string;
  description : option string;
  auction_date : option Carbon;
  date_available : option Carbon;
  features : option parray
}.
End PropertyRow.

Module UserRow.
Record t := Make { id : positive; name : string; phone : option string }.
End UserRow.

(** A nullable column as a PHP value, and its [(string)] cast. *)
Definition nullable (o : option string) : pval :=
  match o with
  | Some s => PString s
  | None => PNull
  end.

Definition number_string (o : option Z) : pval :=
  match o with
  | Some z => PString (pretty z)
  | None => PString EmptyString
  end.

(** [collect($property->features ?? [])->filter()->values()]: the entries
    that are true, in order. *)
Definition listed_features (property : PropertyRow.t) : list pval :=
  List.filter to_bool (map snd (default [] (PropertyRow.features property))).

(** [$features->map(fn($f, $i) => ($i+1).'. '.trim((string)$f))]. *)
Definition numbered (features : list pval) : list string :=
  map (fun '(i, f) => pretty (Z.of_nat i + 1) +:+ ". " +:+ trim (strval f))
      (combine (seq 0 (length features)) features).

(** [Collection::implode] with a string as first argument: the entries are
    joined with it, unless the first entry is an array, in which case the
    string is taken as a key to pluck and the glue is empty. *)
Definition Collection_implode (items : list pval) (value : string) : string :=
  match items with
  | PArray _ :: _ => implode EmptyString (map (fun item => strval (data_get item value PNull)) items)
  | _ => implode value (map strval items)
  end.

(** *** app/Http/Controllers/ElevenLabsController.php, the client data *)

Definition buildClientData (contact : ContactRow.t) (property : PropertyRow.t)
  (user : option UserRow.t) : parray :=
  let features := listed_features property in
  let featuresText :=
    match features with
    | [] => "No special features provided."
    | _ :: _ => implode LF (numbered features)
    end in
  [("first_name", PString (ContactRow.first_name contact));
   ("contact_email", nullable (ContactRow.email contact));
   ("contact_phone", PString (ContactRow.phone contact));
   ("country_code", PString (ContactRow.country_code contact));
   ("address", PString (PropertyRow.address property));
   ("bedrooms", number_string (PropertyRow.bedrooms property));
   ("bathrooms", number_string (PropertyRow.bathrooms property));
   ("carspaces", number_string (PropertyRow.carspaces property));
   ("price", number_string (PropertyRow.price property));
   ("listing_type", PString (PropertyRow.listing_type property));
   ("rental_period", nullable (PropertyRow.rental_period property));
   ("headline", nullable (PropertyRow.headline property));
   ("description", nullable (PropertyRow.description property));
   ("auction_date", nullable (option_map toDateTimeString (PropertyRow.auction_date property)));
   ("date_available", nullable (option_map toDateString (PropertyRow.date_available property)));
   ("agent_name", nullable (option_map UserRow.name user));
   ("agent_phone", nullable (mbind UserRow.phone user));
   ("contact_id", PString (pretty (Zpos (ContactRow.id contact))));
   ("property_id", PString (pretty (Zpos (PropertyRow.id property))));
   ("user_id", nullable (option_map (fun u => pretty (Zpos (UserRow.id u))) user));
   ("features", PString featuresText)].

(** The tables as the endpoint sees them: the row that [find] gives for the
    identifier of the request. *)
Record records := {
  contact_row : pval -> option ContactRow.t;
  property_row : pval -> option PropertyRow.t
}.

Record DataRequest := {
  input : string -> pval;
  user : option UserRow.t
}.

Section ClientData.
Context `{Laravel}.

(** The part of the endpoint after the cache: [findOrFail] twice, then the
    data built from the rows. *)
Definition client_data_from_records (db : records) (request : DataRequest) : reply :=
  match contact_row db (input request "contact_id") with
  | None => Abort 404
  | Some contact =>
      match property_row db (input request "property_id") with
      | None => Abort 404
      | Some property =>
          Json [("client_data", PArray (buildClientData contact property (user request)))]
      end
  end.

Definition conversationInitiationClientData (now : Z) (db : records) (request : DataRequest)
  (st : calls_state) : reply :=
  let conversationId := strval (input request "conversation_id") in
  let cached := Cache_get now ("el_client_data:" +:+ Str_trim conversationId) (cache st) in
  if to_bool cached then Json [("client_data", cached)]
  else client_data_from_records db request.

End ClientData.

(** *** app/Livewire/PropertyLeads.php *)

Definition PropertyLeads_buildClientData (contact : ContactRow.t) (property : PropertyRow.t)
  : parray :=
  let features := listed_features property in
  [("first_name", PString (ContactRow.first_name contact));
   ("contact_email", nullable (ContactRow.email contact));
   ("address", PString (PropertyRow.address property));
   ("bedrooms", number_string (PropertyRow.bedrooms property));
   ("bathrooms", number_string (PropertyRow.bathrooms property));
   ("carspaces", number_string (PropertyRow.carspaces property));
   ("price", number_string (PropertyRow.price property));
   ("listing_type", PString (PropertyRow.listing_type property));
   ("rental_period", nullable (PropertyRow.rental_period property));
   ("features", PString (match features with
                         | [] => "No special features."
                         | _ :: _ => Collection_implode features ", "
                         end));
   ("contact_id", PString (pretty (Zpos (ContactRow.id contact))));
   ("property_id", PString (pretty (Zpos (PropertyRow.id property))))].

Section Livewire.
Context `{PhpRuntime} `{Laravel} `{PhoneNumberUtil}.

(** The [foreach] of [initiateAiCalls] over the contacts selected; an
    exception leaves the loop. *)
Fixpoint call_each (cfg : elevenlabs_config) (e : calls_env) (property : PropertyRow.t)
  (contacts : list ContactRow.t) (st : calls_state) : result unit * calls_state :=
  match contacts with
  | [] => (Returned tt, st)
  | contact :: rest =>
      let clientData := PropertyLeads_buildClientData contact property in
      match initiateOutboundCall cfg e
              [("to", PString (ContactRow.phone contact));
               ("client_data", PArray clientData);
               ("conversation_id", PString ("conv_" +:+ uniqid e (length (placed st))))]
              st with
      | (Returned _, st') => call_each cfg e property rest st'
      | (Raised thrown, st') => (Raised thrown, st')
      end
  end.

Definition initiateAiCalls (cfg : elevenlabs_config) (e : calls_env) (property : PropertyRow.t)
  (contacts : list ContactRow.t) (st : calls_state) : result unit * calls_state :=
  match call_each cfg e property contacts st with
  | (Returned _, st') =>
      (Returned tt,
       CallsState (cache st') (placed st') (flashed st' ++ [("status", "AI calls initiated")]))
  | (Raised thrown, st') => (Raised thrown, st')
  end.

End Livewire.

(** *** app/Models/Note.php, the accessors *)

(** [getTranscriptContentAttribute]: the content stored under the path of
    the note, null without a path or without an object. *)
Definition getTranscriptContentAttribute (n : Note.t) (objects : gmap string string)
  : option string :=
  match Note.transcript_path n with
  | Some path => if truthy path then objects !! path else None
  | None => None
  end.

(** [getRecordingUrlAttribute]; [temporaryUrl] is the signer of the disk,
    called with the path and the expiry. *)
Definition getRecordingUrlAttribute (temporaryUrl : string -> Z -> string) (now : Z) (n : Note.t)
  : option string :=
  match Note.recording_path n with
  | Some path => if truthy path then Some (temporaryUrl path (now + 60 * 60)) else None
  | None => None
  end.

(** *** Definitions used by the further statements *)

(** The webhook endpoint on a sequence of requests: the replies, and the
    queue at the end. *)
Fixpoint receive_all (cfg : config) (requests : list Request) (queue : list parray)
  : list reply * list parray :=
  match requests with
  | [] => ([], queue)
  | request :: rest =>
      let (r, queue') := handleWebhook cfg request queue in
      let (rs, queue'') := receive_all cfg rest queue' in
      (r :: rs, queue'')
  end.

Definition signed (cfg : config) (request : Request) : bool :=
  match header request "X-ElevenLabs-Signature" with
  | Some s => String.eqb s (expected_signature cfg request)
  | None => false
  end.

(** A status on which the client sleeps and tries again. *)
Definition retried (r : Response.t) : bool :=
  (500 <=? Response.status r) || (Response.status r =? 429).

(** A runtime without libphonenumber, with the built-in [trim] for
    [Str::trim], to evaluate the service on concrete numbers. *)
#[export] Instance laravel_runtime : Laravel := {| Str_trim := trim |}.

#[export] Instance no_phone_library : PhoneNumberUtil :=
  {| PhoneNumber := Empty_set;
     parse := fun _ _ => None;
     format_E164 := fun n => match n with end;
     isValidNumber := fun n => match n with end |}.

Definition agent_config : elevenlabs_config :=
  {| agent_id := PString "agent_1"; phone_number_id := PString "pn_1" |}.

Definition platform (r : Response.t) : calls_env :=
  CallsEnv 1736900000 (fun _ => Some r) (fun n => pretty (Z.of_nat n)).

Definition no_calls : calls_state := CallsState ∅ [] [].

Definition lead_ada : ContactRow.t :=
  ContactRow.Make 1 "Ada" (Some "ada@example.org") "+61412345678" "AU".

Definition lead_bob : ContactRow.t :=
  ContactRow.Make 3 "Bob" None "12" "AU".

Definition lead_cyd : ContactRow.t :=
  ContactRow.Make 4 "Cyd" None "0412 345 678" "AU".

Definition listing_2 : PropertyRow.t :=
  PropertyRow.Make 2 "1 High St" (Some 3) (Some 2) None (Some 750000) "sale" None
    (Some "Bright family home") None
    (Some {| year := 2025; month := 2; day := 1; hour := 10; minute := 30; second := 0 |}) None
    (Some [("0", PString " pool "); ("1", PString ""); ("2", PNull); ("3", PString "garage")]).

Definition rows_1_2 : records :=
  {| contact_row := fun v => match v with PInt 1 => Some lead_ada | _ => None end;
     property_row := fun v => match v with PInt 2 => Some listing_2 | _ => None end |}.

Definition data_request (fields : parray) : DataRequest :=
  {| input := fun k => default PNull (array_get k fields); user := None |}.


(** An environment in which the recording URL of the examples answers with
    [fetched] (nothing: the transfer throws). *)
Definition fetching (fetched : option Response.t) (r : Response.t) : env :=
  Env "2025/01/15" 1736900000 (fun _ => fetched) (fun _ => r).

Definition event_with_recording : parray :=
  [("conversation_id", PString "c4"); ("summary", PString "keen");
   ("transcript", PString "Agent: hello"); ("recording_url", PString "https://rec.example/c4.mp3");
   ("contact_id", PInt 1); ("property_id", PInt 2)].

Definition with_features (property : PropertyRow.t) (features : option parray) : PropertyRow.t :=
  PropertyRow.Make (PropertyRow.id property) (PropertyRow.address property)
    (PropertyRow.bedrooms property) (PropertyRow.bathrooms property)
    (PropertyRow.carspaces property) (PropertyRow.price property)
    (PropertyRow.listing_type property) (PropertyRow.rental_period property)
    (PropertyRow.headline property) (PropertyRow.description property)
    (PropertyRow.auction_date property) (PropertyRow.date_available property) features.

Definition crm_with_object : world :=
  World {[1%positive]} {[2%positive]} ∅ [] {["calls/2025/01/14/c0-transcript.txt" := "Agent: hi"]}
        [] [] [].




Section CallingServiceStatements.
Context `{PhpRuntime} `{Laravel} `{PhoneNumberUtil}.

(** The number that [initiateOutboundCall] validates and posts. *)
Definition dialled (args : parray) : string :=
  formatPhoneNumber (strval (coalesce (array_get "to" args) (PString ""))) "AU".

(** The request that it posts. *)
Definition call_request (cfg : elevenlabs_config) (args : parray) : parray :=
  [("agent_id", agent_id cfg); ("phone_number_id", phone_number_id cfg);
   ("to", PString (dialled args));
   ("client_data", coalesce (array_get "client_data" args) (PArray []))].

End CallingServiceStatements.

Definition args_for (to : string) (conversation_id : pval) (client_data : parray) : parray :=
  [("to", PString to); ("client_data", PArray client_data); ("conversation_id", conversation_id)].

Definition accepted : Response.t := Response.Make 200 "{}".

(** ** app/Services/OpenAIService.php, with what it can throw

    [Http::post] either gets a response or throws ConnectionException (no
    connection, or no answer within the 60 seconds of [timeout(60)]), and
    nothing in [analyzeCallSummaryForInterestLevel] catches it. On a response
    that has not failed, [json_decode] is given the content of the message,
    and raises TypeError when that content is an array. The function of the
    same name above is this one on the exchanges in which every request gets
    a response whose content is no array ([answered_client] below). *)

(** [data_get($resp->json(), 'choices.0.message.content')]. *)
Definition message_content `{PhpRuntime} (r : Response.t) : pval :=
  data_get (Response.json r) "choices.0.message.content" PNull.

Module OpenAIService.
Section Client.
Context `{PhpRuntime}.

(** The request of rank [n] is answered by [service n]; none when the
    request throws. The request has been issued in both cases. *)
Definition post (service : nat -> option Response.t) (prompt : string)
  : M (option Response.t) := fun w =>
  (service (length (requests w)),
   World (contacts w) (properties w) (contact_property w) (notes w)
         (disk w) (warnings w) (requests w ++ [prompt]) (sleeps w)).

(** The [foreach ($backoff as $i => $delay)] loop; [resp] is [$resp]. *)
Fixpoint attempts (service : nat -> option Response.t) (prompt : string) (delays : list Z)
  (resp : option Response.t) : M (result (option Response.t)) :=
  match delays with
  | [] => ret (Returned resp)
  | delay :: rest =>
      do answer <- post service prompt ;;
      match answer with
      | None => ret (Raised ConnectionException)
      | Some r =>
          if Response.successful r then ret (Returned (Some r))
          else if (500 <=? Response.status r) || (Response.status r =? 429) then
            run sleep delay ;; attempts service prompt rest (Some r)
          else ret (Returned (Some r))
      end
  end.

(** [if (!$resp || $resp->failed())] and what follows. [json_decode]
    declares its argument a string: a scalar content is converted, a null
    content is taken as the empty string, an array is refused. *)
Definition conclude (resp : option Response.t) : result parray :=
  match resp with
  | None => Returned analysis_failed
  | Some r =>
      if Response.failed r then Returned analysis_failed
      else if is_array (message_content r) then Raised TypeError
      else Returned (interpret r)
  end.

Definition analyzeCallSummaryForInterestLevel (service : nat -> option Response.t)
  (summary : string) : M (result parray) :=
  do looped <- attempts service (prompt_of summary) backoff None ;;
  match looped with
  | Returned resp => ret (conclude resp)
  | Raised thrown => ret (Raised thrown)
  end.

End Client.
End OpenAIService.


(** A service that answers the requests of the first ranks with the
    responses listed, and none of the later ones. *)
Definition then_silent (listed : list Response.t) : nat -> option Response.t :=
  fun n => nth_error listed n.


(** A service that gives the same answer to every request. *)
Definition always (r : Response.t) : nat -> option Response.t := fun _ => Some r.

(** The voice platform answers every request, the answer has not failed,
    and its body is a JSON array or object. *)
Definition platform_accepts `{PhpRuntime} (e : calls_env) : Prop :=
  forall n, exists resp,
    outbound e n = Some resp /\ Response.failed resp = false /\
    is_array (Response.json resp) = true.

(** * Properties *)

(** ** The built-ins on known values *)

Example sha256_abc :
  bin2hex (Bytes.to_string (SHA256.hash (Bytes.of_string "abc")))
  = "ba7816bf8f01cfea414140de5dae2223b00361a396177a9cb410ff61f20015ad".
Proof. vm_compute. reflexivity. Qed.

Example hmac_rfc4231_case2 :
  bin2hex (hash_hmac_sha256 "what do ya want for nothing?" "Jefe")
  = "5bdcc146bf60754e6a042426089575c75a003f089d2739839dec58b964ec3843".
Proof. vm_compute. reflexivity. Qed.

Example base64_hmac_rfc4231_case2 :
  base64_encode (hash_hmac_sha256 "what do ya want for nothing?" "Jefe")
  = "W9zBRr9gdU5qBCQmCJV1x1oAPwidJzmDnexYuWTsOEM=".
Proof. vm_compute. reflexivity. Qed.

Example base64_tails :
  base64_encode "a" = "YQ==" /\ base64_encode "ab" = "YWI=" /\ base64_encode "abc" = "YWJj".
Proof. vm_compute. repeat split. Qed.

Example explode_dot_path :
  explode_dot "choices.0.message.content" "" = ["choices"; "0"; "message"; "content"].
Proof. reflexivity. Qed.

Example json_text_example :
  Json.text (PArray [("a", PArray [("0", PInt 1); ("1", PString "x")]); ("b", PNull)])
  = "{" +:+ Json.quoted "a" +:+ ":[1," +:+ Json.quoted "x" +:+ "]," +:+ Json.quoted "b" +:+ ":null}".
Proof. vm_compute. reflexivity. Qed.

Example json_roundtrip_example : Json.decode (PString (Json.text example_object)) = example_object.
Proof. vm_compute. reflexivity. Qed.

Example json_roundtrip_twice :
  Json.decode (Json.decode (PString (Json.text (PString (Json.text example_object))))) = example_object.
Proof. vm_compute. reflexivity. Qed.

Example json_malformed : Json.decode (PString "{oops") = PNull /\ Json.decode PNull = PNull.
Proof. vm_compute. split; reflexivity. Qed.

Example to_int_examples :
  Json.to_int "42" = 42 /\ Json.to_int " -7x" = -7 /\ Json.to_int "abc" = 0 /\
  Json.to_int "1e3" = 1000 /\ Json.to_int "-1.9" = -1 /\ Json.to_int "1.5e3" = 1500 /\
  Json.to_int ".5" = 0 /\ Json.to_int "12e" = 12 /\
  Json.to_int "99999999999999999999" = 9223372036854775807.
Proof. vm_compute. repeat split. Qed.

(** ** The signature check *)

Arguments hash_hmac_sha256 : simpl never.
Arguments base64_encode : simpl never.
Arguments SHA256.hash : simpl never.

Lemma to_string_length l : String.length (Bytes.to_string l) = length l.
Proof.
  unfold Bytes.to_string. induction l as [|b l IH]; simpl; [reflexivity|].
  now rewrite IH.
Qed.

Lemma of_string_length s : length (Bytes.of_string s) = String.length s.
Proof.
  unfold Bytes.of_string. rewrite length_map.
  induction s as [|c s IH]; simpl; [reflexivity|]. now rewrite IH.
Qed.

Lemma digest_bytes_length s : length (SHA256.digest_bytes s) = 32%nat.
Proof. destruct s. reflexivity. Qed.

Lemma hash_length m : length (SHA256.hash m) = 32%nat.
Proof. unfold SHA256.hash. apply digest_bytes_length. Qed.

Lemma base64_groups_nil bs : base64_groups bs = [] -> bs = [].
Proof. destruct bs as [|a [|b [|c r]]]; simpl; intros E; [reflexivity | discriminate ..]. Qed.

Lemma hash_hmac_sha256_length data key : String.length (hash_hmac_sha256 data key) = 32%nat.
Proof. unfold hash_hmac_sha256. rewrite to_string_length. apply hash_length. Qed.

(** The expected signature is never the empty string: an absent header,
    which [(string) $sig] turns into the empty string, cannot match it. *)
Lemma signature_not_empty data key : base64_encode (hash_hmac_sha256 data key) <> "".
Proof.
  pose proof (hash_hmac_sha256_length data key) as L32.
  pose proof (of_string_length (hash_hmac_sha256 data key)) as L.
  unfold base64_encode. generalize dependent (hash_hmac_sha256 data key).
  intros digest L32 L E.
  assert (G : base64_groups (Bytes.of_string digest) = []).
  { destruct (base64_groups _); [reflexivity | discriminate E]. }
  apply base64_groups_nil in G. rewrite G, L32 in L. discriminate L.
Qed.

Lemma verifySignature_passes cfg request :
  verifySignature cfg request = None <->
  header request "X-ElevenLabs-Signature" = Some (expected_signature cfg request).
Proof.
  pose proof (signature_not_empty (getContent request) (elevenlabs_webhook_secret cfg)) as NE.
  unfold verifySignature, hash_equals, expected_signature.
  generalize dependent (base64_encode (hash_hmac_sha256 (getContent request) (elevenlabs_webhook_secret cfg))).
  intros calc NE.
  destruct (header request "X-ElevenLabs-Signature") as [s|]; cbn.
  - destruct (String.eqb_spec calc s) as [E|E]; split; intros G; congruence.
  - destruct (String.eqb_spec calc "") as [E|E]; split; intros G; congruence.
Qed.

Lemma verifySignature_code cfg request code : verifySignature cfg request = Some code -> code = 401.
Proof. unfold verifySignature. destruct (hash_equals _ _); congruence. Qed.

(** C3. A request whose signature header is not the base64 HMAC-SHA256 of the
    raw body under the configured secret (a missing header among them) is
    answered by the abort 401 and leaves the queue as it was; a request whose
    header is that signature gets one job with its input pushed on the queue
    and the answer [{status: accepted}]. *)
Theorem webhook_signature_gate (cfg : config) (request : Request) (queue : list parray) :
  (header request "X-ElevenLabs-Signature" <> Some (expected_signature cfg request) ->
   handleWebhook cfg request queue = (Abort 401, queue)) /\
  (header request "X-ElevenLabs-Signature" = None ->
   handleWebhook cfg request queue = (Abort 401, queue)) /\
  (header request "X-ElevenLabs-Signature" = Some (expected_signature cfg request) ->
   handleWebhook cfg request queue
   = (Json [("status", PString "accepted")], queue ++ [all request])).
Proof.
  assert (R : header request "X-ElevenLabs-Signature" <> Some (expected_signature cfg request) ->
              handleWebhook cfg request queue = (Abort 401, queue)).
  { intros Hne. unfold handleWebhook.
    destruct (verifySignature cfg request) as [code|] eqn:V.
    - now rewrite (verifySignature_code _ _ _ V).
    - apply verifySignature_passes in V. contradiction. }
  split; [exact R|]. split.
  - intros Hnone. apply R. rewrite Hnone. discriminate.
  - intros Hsig. unfold handleWebhook.
    apply verifySignature_passes in Hsig. now rewrite Hsig.
Qed.

(** The signature of the example body under the configured secret, and under
    another one. *)
Example expected_signature_value :
  expected_signature webhook_config (signed_request None)
  = "GBJScOBR/7KtWBhi0wSyzYoZ5JirtiG5YC0mOH87Bnw=".
Proof. vm_compute. reflexivity. Qed.

Example other_secret_signature :
  base64_encode (hash_hmac_sha256 webhook_body "another_secret")
  = "bGx/lu94L/ySfRPSDWXNJXvN27QHpNJU8t4SMiExGnc=".
Proof. vm_compute. reflexivity. Qed.

Lemma webhook_signature_gate_witness :
  handleWebhook webhook_config (signed_request (Some "GBJScOBR/7KtWBhi0wSyzYoZ5JirtiG5YC0mOH87Bnw=")) []
  = (Json [("status", PString "accepted")], [event_c1]) /\
  handleWebhook webhook_config (signed_request (Some "bGx/lu94L/ySfRPSDWXNJXvN27QHpNJU8t4SMiExGnc=")) []
  = (Abort 401, []) /\
  handleWebhook webhook_config (signed_request None) [] = (Abort 401, []).
Proof.
  split; [|split].
  - apply (proj2 (proj2 (webhook_signature_gate webhook_config
             (signed_request (Some "GBJScOBR/7KtWBhi0wSyzYoZ5JirtiG5YC0mOH87Bnw=")) []))).
    vm_compute. reflexivity.
  - apply (proj1 (webhook_signature_gate webhook_config
             (signed_request (Some "bGx/lu94L/ySfRPSDWXNJXvN27QHpNJU8t4SMiExGnc=")) [])).
    vm_compute. intros E. discriminate E.
  - apply (proj1 (proj2 (webhook_signature_gate webhook_config (signed_request None) []))).
    reflexivity.
Defined.

(** ** The classification client *)

Section ServiceFacts.
Context `{PhpRuntime}.

Lemma spoken_nil w p : spoken w p 0 [] = w.
Proof. destruct w. unfold spoken. simpl. now rewrite !app_nil_r. Qed.

(** The loop of the client performs the exchange. *)
Lemma attempts_exchange e p delays : forall resp w,
  attempts e p delays resp w =
  (fst (exchange e delays (length (requests w)) resp),
   spoken w p (fst (snd (exchange e delays (length (requests w)) resp)))
              (snd (snd (exchange e delays (length (requests w)) resp)))).
Proof.
  induction delays as [|d rest IH]; intros resp w.
  - simpl. unfold ret. now rewrite spoken_nil.
  - cbn [attempts exchange]. unfold bind at 1. unfold Http_post at 1.
    destruct (Response.successful (reasoning e (length (requests w)))) eqn:S1.
    + unfold ret, spoken. simpl. now rewrite app_nil_r.
    + destruct ((500 <=? Response.status (reasoning e (length (requests w)))) ||
                (Response.status (reasoning e (length (requests w))) =? 429)) eqn:S2.
      * unfold bind, sleep. rewrite IH. cbn [requests sleeps].
        rewrite length_app. simpl length. rewrite Nat.add_1_r.
        destruct (exchange e rest (S (length (requests w))) _) as [x [k sl]].
        unfold spoken. simpl. rewrite <- !app_assoc. reflexivity.
      * unfold ret, spoken. simpl. now rewrite app_nil_r.
Qed.

Lemma exchange_count e delays : forall n resp,
  (fst (snd (exchange e delays n resp)) <= length delays)%nat /\
  (delays <> [] -> (1 <= fst (snd (exchange e delays n resp)))%nat).
Proof.
  induction delays as [|d rest IH]; intros n resp; simpl.
  - split; [lia | congruence].
  - destruct (Response.successful (reasoning e n)); simpl; [split; lia|].
    destruct ((500 <=? _) || _); simpl; [|split; lia].
    specialize (IH (S n) (Some (reasoning e n))).
    destruct (exchange e rest (S n) _) as [x [k sl]]. simpl in *. split; lia.
Qed.

(** The response kept by the loop is the answer to one of its requests. *)
Lemma exchange_kept e delays : forall n resp,
  fst (exchange e delays n resp) = resp \/
  exists m, fst (exchange e delays n resp) = Some (reasoning e m).
Proof.
  induction delays as [|d rest IH]; intros n resp; simpl.
  - now left.
  - destruct (Response.successful (reasoning e n)); simpl; [right; eauto|].
    destruct ((500 <=? _) || _); simpl; [|right; eauto].
    specialize (IH (S n) (Some (reasoning e n))).
    destruct (exchange e rest (S n) _) as [x [k sl]]. simpl in *.
    destruct IH as [->|[m ->]]; right; eauto.
Qed.

Lemma analyze_eq e summary w :
  analyzeCallSummaryForInterestLevel e summary w =
  (verdict e (length (requests w)),
   spoken w (prompt_of summary) (posts e (length (requests w))) (pauses e (length (requests w)))).
Proof.
  unfold analyzeCallSummaryForInterestLevel, bind. rewrite attempts_exchange. reflexivity.
Qed.

Lemma posts_bounds e n : (1 <= posts e n <= 3)%nat.
Proof.
  unfold posts. destruct (exchange_count e backoff n None) as [Hle Hge].
  split; [apply Hge; discriminate | exact Hle].
Qed.

(** The three classes of status that the loop distinguishes. *)
Lemma retried_status r :
  500 <= Response.status r \/ Response.status r = 429 ->
  Response.successful r = false /\
  (500 <=? Response.status r) || (Response.status r =? 429) = true /\
  Response.failed r = true.
Proof.
  unfold Response.successful, Response.failed, Response.serverError, Response.clientError.
  intros Hs.
  destruct (Z.leb_spec 200 (Response.status r)), (Z.ltb_spec (Response.status r) 300),
    (Z.leb_spec 500 (Response.status r)), (Z.eqb_spec (Response.status r) 429),
    (Z.leb_spec 400 (Response.status r)), (Z.ltb_spec (Response.status r) 500);
    simpl; repeat split; try reflexivity; lia.
Qed.

Lemma aborting_status r :
  400 <= Response.status r < 500 -> Response.status r <> 429 ->
  Response.successful r = false /\
  (500 <=? Response.status r) || (Response.status r =? 429) = false /\
  Response.failed r = true.
Proof.
  unfold Response.successful, Response.failed, Response.serverError, Response.clientError.
  intros Hs Hn.
  destruct (Z.leb_spec 200 (Response.status r)), (Z.ltb_spec (Response.status r) 300),
    (Z.leb_spec 500 (Response.status r)), (Z.eqb_spec (Response.status r) 429),
    (Z.leb_spec 400 (Response.status r)), (Z.ltb_spec (Response.status r) 500);
    simpl; repeat split; try reflexivity; lia.
Qed.

(** The result is the default array or the array built from a response:
    three entries in both cases. *)
Lemma verdict_cases e n :
  verdict e n = analysis_failed \/ exists r, verdict e n = interpret r.
Proof.
  unfold verdict, conclude.
  destruct (fst (exchange e backoff n None)) as [r|]; [|now left].
  destruct (Response.failed r); [now left | right; eauto].
Qed.

(** The score is clamped, whatever the response holds. *)
Lemma interpret_score r :
  exists s, array_get "score" (interpret r) = Some (PInt s) /\ 0 <= s <= 100.
Proof. unfold interpret. simpl. eexists. split; [reflexivity | lia]. Qed.

Lemma interpret_keys r : map fst (interpret r) = ["level"; "score"; "rationale"].
Proof. reflexivity. Qed.

(** A level that is a string is kept when it is one of the four words and
    replaced by unknown otherwise; of the other values only [true] passes
    the test. *)
Lemma in_array_levels_string s :
  in_array (PString s) interest_levels = true -> In s interest_levels.
Proof.
  unfold in_array, interest_levels. simpl. intros Hin.
  repeat (apply orb_prop in Hin; destruct Hin as [Hin|Hin]);
    try discriminate Hin; apply String.eqb_eq in Hin; subst s; tauto.
Qed.

Lemma in_array_levels_inv v :
  in_array v interest_levels = true ->
  v = PBool true \/ exists s, v = PString s /\ In s interest_levels.
Proof.
  destruct v as [|[|]| | |s|]; try (now left); try discriminate.
  intros Hin. right. exists s. split; [reflexivity | now apply in_array_levels_string].
Qed.

Lemma in_array_true : in_array (PBool true) interest_levels = true.
Proof. reflexivity. Qed.

(** The level of a result of the success path, from the decoded content. *)
Lemma interpret_level r :
  let parsed := json_decode (data_get (Response.json r) "choices.0.message.content" PNull) in
  array_get "level" (interpret r) =
  Some (if in_array (data_get parsed "interest_level" PNull) interest_levels
        then index parsed "interest_level" else PString "unknown").
Proof. reflexivity. Qed.

(** Every value but [true] and the four words gives the level unknown. *)
Lemma interpret_level_coerced r :
  let parsed := json_decode (data_get (Response.json r) "choices.0.message.content" PNull) in
  data_get parsed "interest_level" PNull <> PBool true ->
  (forall s, data_get parsed "interest_level" PNull = PString s -> ~ In s interest_levels) ->
  array_get "level" (interpret r) = Some (PString "unknown").
Proof.
  intros parsed Htrue Hword. rewrite interpret_level. fold parsed.
  destruct (in_array (data_get parsed "interest_level" PNull) interest_levels) eqn:Hin;
    [|reflexivity].
  apply in_array_levels_inv in Hin. destruct Hin as [Hin | (s & Hs & Hin)].
  - contradiction.
  - destruct (Hword s Hs Hin).
Qed.

(** C7, amended. An empty summary is sent to the reasoning service like any
    other: the client posts between one and three requests, whose prompt
    ends after the heading of the summary, and it returns the default result
    when the answers are failures. *)
Theorem empty_summary_is_posted (e : env) (w : world) :
  exists k sl,
    (1 <= k <= 3)%nat /\
    snd (analyzeCallSummaryForInterestLevel e "" w) = spoken w (prompt_of "") k sl /\
    ((forall n, Response.failed (reasoning e n) = true) ->
     fst (analyzeCallSummaryForInterestLevel e "" w) = analysis_failed).
Proof.
  exists (posts e (length (requests w))), (pauses e (length (requests w))).
  rewrite analyze_eq. cbn [fst snd]. split; [apply posts_bounds|]. split; [reflexivity|].
  intros Hfail. unfold verdict.
  destruct (exchange_kept e backoff (length (requests w)) None) as [-> | [m ->]].
  - reflexivity.
  - cbn [conclude]. now rewrite Hfail.
Qed.

End ServiceFacts.

(** Runs of the client on concrete answers. *)

Example always_500 :
  analyzeCallSummaryForInterestLevel (answering (Response.Make 500 "")) "keen" empty_world
  = (analysis_failed,
     World ∅ ∅ ∅ [] ∅ [] [prompt_of "keen"; prompt_of "keen"; prompt_of "keen"] [1; 2; 4]).
Proof. vm_compute. reflexivity. Qed.

Example score_150_clamped :
  fst (analyzeCallSummaryForInterestLevel
         (answering (classification (PString "warm") (PInt 150))) "keen" empty_world)
  = [("level", PString "warm"); ("score", PInt 100);
     ("rationale", PString "asked for an inspection")].
Proof. vm_compute. reflexivity. Qed.

Example score_minus_5_clamped :
  fst (analyzeCallSummaryForInterestLevel
         (answering (classification (PString "cold") (PInt (-5)))) "keen" empty_world)
  = [("level", PString "cold"); ("score", PInt 0);
     ("rationale", PString "asked for an inspection")].
Proof. vm_compute. reflexivity. Qed.

Example level_maybe_coerced :
  fst (analyzeCallSummaryForInterestLevel
         (answering (classification (PString "maybe") (PInt 40))) "keen" empty_world)
  = [("level", PString "unknown"); ("score", PInt 40);
     ("rationale", PString "asked for an inspection")].
Proof. vm_compute. reflexivity. Qed.

(** C5, at the failing input. The answer [{interest_level: true,
    interest_score: 50}] passes the loose [in_array] test, and the client
    returns the boolean as the level instead of unknown. *)
Theorem level_true_is_kept :
  fst (analyzeCallSummaryForInterestLevel
         (answering (classification (PBool true) (PInt 50))) "keen" empty_world)
  = [("level", PBool true); ("score", PInt 50);
     ("rationale", PString "asked for an inspection")].
Proof. vm_compute. reflexivity. Qed.

(** C6, at the failing input. On an answer that is read with success the
    result has the keys level, score and rationale, while the result of the
    failure path has interest_level, interest_score and rationale. *)
Theorem success_result_keys :
  map fst (fst (analyzeCallSummaryForInterestLevel
                  (answering (classification (PString "hot") (PInt 88))) "keen" empty_world))
  = ["level"; "score"; "rationale"] /\
  map fst (fst (analyzeCallSummaryForInterestLevel
                  (answering (Response.Make 500 "")) "keen" empty_world))
  = ["interest_level"; "interest_score"; "rationale"].
Proof. vm_compute. split; reflexivity. Qed.

(** C7, refuted as stated: with an empty summary and a service that answers
    hot and 88, a request is posted and the result is not the default. *)
Lemma empty_summary_not_short_circuited :
  ~ answered_without_request (answering (classification (PString "hot") (PInt 88))) empty_world.
Proof.
  unfold answered_without_request.
  destruct (analyzeCallSummaryForInterestLevel _ "" empty_world) as [a w'] eqn:E.
  vm_compute in E. injection E as <- <-.
  intros (Hl & _). vm_compute in Hl. discriminate Hl.
Qed.

Lemma empty_summary_is_posted_witness :
  exists k sl,
    (1 <= k <= 3)%nat /\
    snd (analyzeCallSummaryForInterestLevel (answering (Response.Make 503 "")) "" empty_world)
    = spoken empty_world (prompt_of "") k sl /\
    fst (analyzeCallSummaryForInterestLevel (answering (Response.Make 503 "")) "" empty_world)
    = analysis_failed.
Proof.
  destruct (empty_summary_is_posted (answering (Response.Make 503 "")) empty_world)
    as (k & sl & Hk & Hw & Hd).
  exists k, sl. split; [exact Hk|]. split; [exact Hw|].
  apply Hd. intros n. reflexivity.
Defined.

(** ** The queue job *)

Lemma append_cancel (s a b : string) : s +:+ a = s +:+ b -> a = b.
Proof. induction s as [|c s IH]; simpl; intros E; [exact E | injection E as E; auto]. Qed.

Arguments analyzeCallSummaryForInterestLevel : simpl never.
Arguments String.append : simpl never.
Arguments input_string : simpl never.
Arguments input_int : simpl never.
Arguments truthy : simpl never.
Arguments or_null : simpl never.
Arguments find_in : simpl never.
Arguments attached : simpl never.
Arguments verdict : simpl never.
Arguments posts : simpl never.
Arguments pauses : simpl never.
Arguments coalesce : simpl never.
Arguments array_get : simpl never.
Arguments intval : simpl never.
Arguments transcript_key : simpl never.
Arguments recording_key : simpl never.

Section JobFacts.
Context `{PhpRuntime}.

(** The job computes the stages. The proof follows the paths of a run:
    whether a transcript is stored, how the download of the recording ends,
    which of the two records are found. *)
Lemma handle_stages e data w : handle e data w = (job_outcome data w, job_world e data w).
Proof.
  unfold handle, bind, job_world, job_outcome, associated, synced, notable, call_note,
    kept_transcript, kept_recording, download_warnings, association.
  fold (transcript_key e (input_string data "conversation_id")).
  fold (recording_key e (input_string data "conversation_id")).
  destruct (truthy (input_string data "transcript")) eqn:Htranscript;
  (destruct (truthy (input_string data "recording_url")) eqn:Hrecording;
   [destruct (http_get e (input_string data "recording_url")) as [recording|] eqn:Hget;
    [destruct (Response.successful recording) eqn:Hfetched|]|]);
  simpl;
  (destruct (find_in (contacts w) (input_int data "contact_id")) as [c|] eqn:Hc;
   destruct (find_in (properties w) (input_int data "property_id")) as [p|] eqn:Hp;
   try destruct (attached (contact_property w) c (input_int data "property_id")) as [q|] eqn:Hq;
   simpl; rewrite ?Hc, ?Hp; simpl; rewrite analyze_eq; simpl;
   destruct (negb (input_int data "contact_id" =? 0) && negb (input_int data "property_id" =? 0));
   unfold syncWithoutDetaching, ret, spoken; simpl; rewrite ?Hc; simpl; rewrite ?Hq; simpl;
   rewrite ?Hp; simpl;
   rewrite ?app_nil_r; reflexivity).
Qed.








(** C9. When the contact of an event exists, the note created is owned by
    that contact, whether the property exists or not; the property owns the
    note only when the contact is not found. *)
Theorem note_owner_precedence (e : env) (data : parray) (w : world) :
  (forall c, find_in (contacts w) (input_int data "contact_id") = Some c ->
     exists n, notes (snd (handle e data w)) = notes w ++ [n] /\
               Note.notable_type n = Contact /\ Note.notable_id n = c) /\
  (forall p, find_in (contacts w) (input_int data "contact_id") = None ->
     find_in (properties w) (input_int data "property_id") = Some p ->
     exists n, notes (snd (handle e data w)) = notes w ++ [n] /\
               Note.notable_type n = Property /\ Note.notable_id n = p).
Proof.
  split.
  - intros c Hc. rewrite handle_stages. cbn [snd]. unfold job_world, notable. cbn [notes].
    rewrite Hc. eexists. split; [reflexivity|]. split; reflexivity.
  - intros p Hc Hp. rewrite handle_stages. cbn [snd]. unfold job_world, notable. cbn [notes].
    rewrite Hc, Hp. eexists. split; [reflexivity|]. split; reflexivity.
Qed.

(** Every run in which a record is found appends a note; nothing looks for a
    note of the same conversation. *)
Lemma handle_appends_note e data w owner :
  notable data w = Some owner ->
  notes (snd (handle e data w)) = notes w ++ [call_note e data owner].
Proof. intros Ho. rewrite handle_stages. cbn [snd]. unfold job_world. cbn [notes]. now rewrite Ho. Qed.

(** A run leaves the tables of contacts and properties as they were, so the
    owner of the note is the same at the next delivery. *)
Lemma handle_keeps_records e data w :
  contacts (snd (handle e data w)) = contacts w /\
  properties (snd (handle e data w)) = properties w.
Proof. rewrite handle_stages. now split. Qed.

Lemma notable_after_run e data data' w :
  notable data' (snd (handle e data w)) = notable data' w.
Proof.
  unfold notable. destruct (handle_keeps_records e data w) as [-> ->]. reflexivity.
Qed.

(** Two deliveries of an event whose owner is found append two notes. *)
Lemma redelivery_appends_again e e' data w owner :
  notable data w = Some owner ->
  notes (snd (handle e' data (snd (handle e data w))))
  = notes w ++ [call_note e data owner; call_note e' data owner].
Proof.
  intros Ho.
  rewrite (handle_appends_note e' data _ owner) by (now rewrite notable_after_run).
  rewrite (handle_appends_note e data w owner Ho). now rewrite <- app_assoc.
Qed.

Lemma keys_differ e conversationId : recording_key e conversationId <> transcript_key e conversationId.
Proof.
  unfold recording_key, transcript_key. intros E.
  repeat apply append_cancel in E. discriminate E.
Qed.

(** The transcript of an event, when the job takes it as present, is in the
    object store after the run. *)
Lemma transcript_stored e data w :
  truthy (input_string data "transcript") = true ->
  disk (snd (handle e data w)) !! transcript_key e (input_string data "conversation_id")
  = Some (input_string data "transcript").
Proof.
  intros Ht. rewrite handle_stages. cbn [snd]. unfold job_world. cbn [disk].
  unfold kept_transcript. rewrite Ht.
  destruct (kept_recording e data) as [[key content]|] eqn:Hr.
  - unfold kept_recording in Hr.
    destruct (truthy (input_string data "recording_url")); [|discriminate Hr].
    destruct (http_get e (input_string data "recording_url")) as [resp|]; [|discriminate Hr].
    destruct (Response.successful resp); [|discriminate Hr].
    injection Hr as <- <-.
    rewrite lookup_insert_ne by apply keys_differ. apply lookup_insert_eq.
  - apply lookup_insert_eq.
Qed.



End JobFacts.

(** Runs of the job on concrete events. *)

(** C1, at the failing input. The event of conversation c1 is delivered
    twice to a store that holds contact 1 and property 2: after the first run
    one note carries the identifier, after the second run two do. *)
Theorem redelivery_creates_second_note :
  let e := answering (classification (PString "hot") (PInt 88)) in
  let once := snd (handle e event_c1 crm) in
  let twice := snd (handle e event_c1 once) in
  length (notes_of "c1" once) = 1%nat /\ length (notes_of "c1" twice) = 2%nat.
Proof. vm_compute. split; reflexivity. Qed.




(** The same event when the service only answers with status 500: the row is
    written with the default. *)
Example association_of_failed_analysis :
  contact_property (snd (handle (answering (Response.Make 500 "")) event_c1 crm))
    !! (1%positive, 2%positive)
  = Some {| Pivot.interest_level := PString "unknown";
            Pivot.interest_score := 0;
            Pivot.last_contacted_at := 1736900000;
            Pivot.last_conversation_id := "c1" |}.
Proof. vm_compute. reflexivity. Qed.

Lemma note_owner_precedence_witness :
  let e := answering (classification (PString "hot") (PInt 88)) in
  (exists n, notes (snd (handle e event_c1 crm)) = [n] /\
             Note.notable_type n = Contact /\ Note.notable_id n = 1%positive) /\
  (exists n, notes (snd (handle e event_c1 (World ∅ {[2%positive]} ∅ [] ∅ [] [] []))) = [n] /\
             Note.notable_type n = Property /\ Note.notable_id n = 2%positive).
Proof.
  intros e. split.
  - apply (proj1 (note_owner_precedence e event_c1 crm) 1%positive). reflexivity.
  - apply (proj2 (note_owner_precedence e event_c1 (World ∅ {[2%positive]} ∅ [] ∅ [] [] []))
             2%positive); reflexivity.
Defined.


(** The contact exists and the property does not: the note is created, then
    the write on the pivot is refused and the run throws. *)
Example unknown_property_throws :
  let r := handle (answering (classification (PString "hot") (PInt 88)))
             [("conversation_id", PString "c3"); ("contact_id", PInt 1); ("property_id", PInt 8)]
             crm in
  fst r = Thrown "QueryException" /\ length (notes (snd r)) = 1%nat.
Proof. vm_compute. split; reflexivity. Qed.

(** * Further properties of the code *)

(** ** The retry loop *)

Section LoopFacts.
Context `{PhpRuntime}.

Lemma retried_not_successful r : retried r = true -> Response.successful r = false.
Proof.
  unfold retried, Response.successful. intros Hr.
  destruct (Z.leb_spec 500 (Response.status r)), (Z.eqb_spec (Response.status r) 429),
    (Z.leb_spec 200 (Response.status r)), (Z.ltb_spec (Response.status r) 300);
    simpl in *; try reflexivity; try discriminate; lia.
Qed.

(** After [k] answers on which the loop tries again, an answer on which it
    does not ends the loop. *)
Lemma exchange_stops e : forall delays n resp k,
  (k < length delays)%nat ->
  (forall i, (i < k)%nat -> retried (reasoning e (n + i)) = true) ->
  retried (reasoning e (n + k)) = false ->
  exchange e delays n resp = (Some (reasoning e (n + k)), (S k, firstn k delays)).
Proof.
  induction delays as [|d rest IH]; intros n resp k Hk Hretry Hstop; [simpl in Hk; lia|].
  destruct k as [|k].
  - rewrite Nat.add_0_r in *. cbn [exchange firstn]. fold (retried (reasoning e n)).
    rewrite Hstop. now destruct (Response.successful (reasoning e n)).
  - pose proof (Hretry O ltac:(lia)) as H0. rewrite Nat.add_0_r in H0.
    cbn [exchange firstn]. fold (retried (reasoning e n)).
    rewrite (retried_not_successful _ H0), H0.
    rewrite (IH (S n) (Some (reasoning e n)) k).
    + now replace (S n + k)%nat with (n + S k)%nat by lia.
    + simpl in Hk. lia.
    + intros i Hi. replace (S n + i)%nat with (n + S i)%nat by lia. apply Hretry. lia.
    + now replace (S n + k)%nat with (n + S k)%nat by lia.
Qed.

Lemma analyze_after_retries e summary w k :
  (k < 3)%nat ->
  (forall i, (i < k)%nat -> retried (reasoning e (length (requests w) + i)) = true) ->
  retried (reasoning e (length (requests w) + k)) = false ->
  analyzeCallSummaryForInterestLevel e summary w
  = (conclude (Some (reasoning e (length (requests w) + k))),
     spoken w (prompt_of summary) (S k) (firstn k [1; 2; 4])).
Proof.
  intros Hk Hretry Hstop. rewrite analyze_eq. unfold verdict, posts, pauses.
  now rewrite (exchange_stops e backoff _ None k Hk Hretry Hstop).
Qed.


Lemma exchange_pauses e : forall delays n resp,
  exists j, snd (snd (exchange e delays n resp)) = firstn j delays /\
            (j <= length delays)%nat /\
            (fst (snd (exchange e delays n resp)) = S j \/
             fst (snd (exchange e delays n resp)) = j /\ j = length delays).
Proof.
  induction delays as [|d rest IH]; intros n resp.
  - exists O. simpl. repeat split; auto.
  - cbn [exchange]. destruct (Response.successful (reasoning e n)).
    + exists O. simpl. repeat split; [lia | now left].
    + destruct ((500 <=? _) || _).
      * destruct (IH (S n) (Some (reasoning e n))) as (j & Hp & Hj & Hk).
        destruct (exchange e rest (S n) _) as [x [k sl]]. simpl in *.
        exists (S j). subst sl. simpl. repeat split; [lia|].
        destruct Hk as [-> | [-> ->]]; [now left | now right].
      * exists O. simpl. repeat split; [lia | now left].
Qed.

(** Whatever the answers are, a call of the client posts between one and
    three requests with the prompt of the summary and sleeps a prefix of the
    schedule 1, 2, 4, one delay after each answer but possibly the last: at
    most seven seconds in all. *)
Theorem client_effort_bounded (e : env) (summary : string) (w : world) :
  exists k j,
    requests (snd (analyzeCallSummaryForInterestLevel e summary w))
    = requests w ++ repeat (prompt_of summary) k /\
    sleeps (snd (analyzeCallSummaryForInterestLevel e summary w))
    = sleeps w ++ firstn j [1; 2; 4] /\
    (1 <= k <= 3)%nat /\ (k - 1 <= j <= k)%nat /\
    fold_right Z.add 0 (firstn j [1; 2; 4]) <= 7.
Proof.
  rewrite analyze_eq. cbn [snd]. unfold spoken. cbn [requests sleeps].
  pose proof (posts_bounds e (length (requests w))) as Hk.
  destruct (exchange_pauses e backoff (length (requests w)) None) as (j & Hp & Hj & Hkj).
  fold (pauses e (length (requests w))) in Hp. fold (posts e (length (requests w))) in Hkj.
  exists (posts e (length (requests w))), j.
  rewrite Hp. unfold backoff in *. simpl length in *.
  split; [reflexivity|]. split; [reflexivity|]. split; [exact Hk|]. split; [lia|].
  destruct j as [|[|[|[|j]]]]; simpl; lia.
Qed.

Lemma failed_not_successful r : Response.successful r = true -> Response.failed r = false.
Proof.
  unfold Response.successful, Response.failed, Response.serverError, Response.clientError.
  destruct (Z.leb_spec 200 (Response.status r)), (Z.ltb_spec (Response.status r) 300),
    (Z.leb_spec 500 (Response.status r)), (Z.leb_spec 400 (Response.status r)),
    (Z.ltb_spec (Response.status r) 500); simpl; intros; try reflexivity; try discriminate; lia.
Qed.

Lemma successful_not_retried r : Response.successful r = true -> retried r = false.
Proof.
  intros Hs. destruct (retried r) eqn:Hr; [|reflexivity].
  apply retried_not_successful in Hr. congruence.
Qed.

(** [data_get] on an array, with a key that has no dot. *)
Lemma data_get_array a k d :
  explode_dot k "" = [k] -> data_get (PArray a) k d = default d (array_get k a).
Proof.
  intros Hk. unfold data_get. rewrite Hk. unfold data_get_path.
  now destruct (array_get k a).
Qed.

(** A first answer with a 2xx status whose message content decodes to an
    array with a level among the four words, an integer score between 0 and
    100 and a string as rationale: one request, no sleep, and the result
    holds exactly these three values. *)
Theorem valid_answer_is_returned (e : env) (summary : string) (w : world)
    (a : parray) (level : string) (score : Z) (rationale : string) :
  let r := reasoning e (length (requests w)) in
  Response.successful r = true ->
  json_decode (data_get (Response.json r) "choices.0.message.content" PNull) = PArray a ->
  array_get "interest_level" a = Some (PString level) -> In level interest_levels ->
  array_get "interest_score" a = Some (PInt score) -> 0 <= score <= 100 ->
  array_get "rationale" a = Some (PString rationale) ->
  analyzeCallSummaryForInterestLevel e summary w
  = ([("level", PString level); ("score", PInt score); ("rationale", PString rationale)],
     spoken w (prompt_of summary) 1 []).
Proof.
  intros r Hs Ha Hl Hin Hsc Hrange Hr.
  rewrite (analyze_after_retries e summary w 0); try lia.
  2: { rewrite Nat.add_0_r. now apply successful_not_retried. }
  rewrite Nat.add_0_r. fold r. cbn [conclude firstn].
  rewrite (failed_not_successful _ Hs). f_equal.
  unfold interpret. rewrite Ha.
  rewrite !data_get_array by (vm_compute; reflexivity).
  unfold index. rewrite Hl, Hsc, Hr.
  assert (Hw : in_array (PString level) interest_levels = true).
  { unfold in_array, interest_levels in *. simpl in *.
    destruct Hin as [<-|[<-|[<-|[<-|[]]]]]; reflexivity. }
  change (default PNull (Some (PString level))) with (PString level).
  rewrite Hw. unfold intval, strval. cbn [default from_option id].
  repeat f_equal. lia.
Qed.

(** A first answer with a 2xx status whose message content does not decode
    (the decoder gives null): the result is level unknown, score 0 and an
    empty rationale, under the keys of the success path; it is not the array
    of the failure path, whose rationale is analysis_failed. *)
Theorem undecodable_answer_gives_unknown (e : env) (summary : string) (w : world) :
  let r := reasoning e (length (requests w)) in
  Response.successful r = true ->
  json_decode (data_get (Response.json r) "choices.0.message.content" PNull) = PNull ->
  analyzeCallSummaryForInterestLevel e summary w
  = ([("level", PString "unknown"); ("score", PInt 0); ("rationale", PString "")],
     spoken w (prompt_of summary) 1 []).
Proof.
  intros r Hs Hnull.
  rewrite (analyze_after_retries e summary w 0); try lia.
  2: { rewrite Nat.add_0_r. now apply successful_not_retried. }
  rewrite Nat.add_0_r. fold r. cbn [conclude firstn].
  rewrite (failed_not_successful _ Hs). f_equal.
  unfold interpret. rewrite Hnull. reflexivity.
Qed.


End LoopFacts.


Lemma valid_answer_is_returned_witness :
  analyzeCallSummaryForInterestLevel (answering (classification (PString "warm") (PInt 61)))
    "keen" empty_world
  = ([("level", PString "warm"); ("score", PInt 61);
      ("rationale", PString "asked for an inspection")],
     spoken empty_world (prompt_of "keen") 1 []).
Proof.
  apply (valid_answer_is_returned (answering (classification (PString "warm") (PInt 61)))
           "keen" empty_world
           [("interest_level", PString "warm"); ("interest_score", PInt 61);
            ("rationale", PString "asked for an inspection")]).
  - reflexivity.
  - vm_compute. reflexivity.
  - reflexivity.
  - simpl. tauto.
  - reflexivity.
  - lia.
  - reflexivity.
Defined.

Lemma undecodable_answer_gives_unknown_witness :
  analyzeCallSummaryForInterestLevel (answering (chat_completion "Sure! The lead sounds hot."))
    "keen" empty_world
  = ([("level", PString "unknown"); ("score", PInt 0); ("rationale", PString "")],
     spoken empty_world (prompt_of "keen") 1 []).
Proof.
  apply (undecodable_answer_gives_unknown
           (answering (chat_completion "Sure! The lead sounds hot.")) "keen" empty_world).
  - reflexivity.
  - vm_compute. reflexivity.
Defined.


(** ** The job: the recording, the stores, the pivot *)

Section JobMore.
Context `{PhpRuntime}.

Lemma notes_after_run e data w :
  notes (snd (handle e data w))
  = notes w ++ match notable data w with
               | Some owner => [call_note e data owner]
               | None => []
               end.
Proof. rewrite handle_stages. reflexivity. Qed.

Lemma disk_after_run e data w :
  disk (snd (handle e data w))
  = let d := match kept_transcript e data with
             | Some key => <[key := input_string data "transcript"]> (disk w)
             | None => disk w
             end in
    match kept_recording e data with
    | Some (key, content) => <[key := content]> d
    | None => d
    end.
Proof. rewrite handle_stages. reflexivity. Qed.

(** A recording that is fetched with a 2xx answer is stored under the
    recording key of the conversation, beside the transcript, and the note
    created in the run points to both. *)
Theorem recording_is_stored (e : env) (data : parray) (w : world) (resp : Response.t) :
  truthy (input_string data "recording_url") = true ->
  http_get e (input_string data "recording_url") = Some resp ->
  Response.successful resp = true ->
  disk (snd (handle e data w)) !! recording_key e (input_string data "conversation_id")
  = Some (Response.body resp) /\
  (truthy (input_string data "transcript") = true ->
   disk (snd (handle e data w)) !! transcript_key e (input_string data "conversation_id")
   = Some (input_string data "transcript")) /\
  (forall owner, notable data w = Some owner ->
     exists n, notes (snd (handle e data w)) = notes w ++ [n] /\
       Note.recording_path n = Some (recording_key e (input_string data "conversation_id")) /\
       (truthy (input_string data "transcript") = true ->
        Note.transcript_path n
        = Some (transcript_key e (input_string data "conversation_id")))).
Proof.
  intros Hurl Hget Hok.
  assert (Hrec : kept_recording e data
                 = Some (recording_key e (input_string data "conversation_id"), Response.body resp)).
  { unfold kept_recording. now rewrite Hurl, Hget, Hok. }
  split; [|split].
  - rewrite disk_after_run, Hrec. cbv zeta. apply lookup_insert_eq.
  - apply transcript_stored.
  - intros owner Ho. rewrite notes_after_run, Ho. eexists. split; [reflexivity|].
    unfold call_note. cbn [Note.recording_path Note.transcript_path]. rewrite Hrec.
    split; [reflexivity|]. intros Ht. unfold kept_transcript. now rewrite Ht.
Qed.

(** When the download of the recording throws, the job logs one warning,
    stores nothing under the recording key, and goes on: the note is created
    with a null recording path and the transcript path of the run, and the
    classification is requested. *)
Theorem failed_download_is_logged (e : env) (data : parray) (w : world) :
  truthy (input_string data "recording_url") = true ->
  http_get e (input_string data "recording_url") = None ->
  warnings (snd (handle e data w)) = warnings w ++ ["Recording download failed"] /\
  disk (snd (handle e data w)) !! recording_key e (input_string data "conversation_id")
  = disk w !! recording_key e (input_string data "conversation_id") /\
  (forall owner, notable data w = Some owner ->
     exists n, notes (snd (handle e data w)) = notes w ++ [n] /\
       Note.recording_path n = None /\
       Note.transcript_path n = kept_transcript e data) /\
  (length (requests w) < length (requests (snd (handle e data w))))%nat.
Proof.
  intros Hurl Hget.
  assert (Hrec : kept_recording e data = None).
  { unfold kept_recording. now rewrite Hurl, Hget. }
  split; [|split; [|split]].
  - rewrite handle_stages. cbn [snd]. unfold job_world, download_warnings. cbn [warnings].
    now rewrite Hurl, Hget.
  - rewrite disk_after_run, Hrec. cbv zeta. unfold kept_transcript.
    destruct (truthy (input_string data "transcript")); [|reflexivity].
    apply lookup_insert_ne. intros E. symmetry in E. now apply keys_differ in E.
  - intros owner Ho. rewrite notes_after_run, Ho. eexists. split; [reflexivity|].
    unfold call_note. cbn [Note.recording_path Note.transcript_path]. now rewrite Hrec.
  - rewrite handle_stages. cbn [snd]. unfold job_world. cbn [requests].
    rewrite length_app, repeat_length.
    pose proof (posts_bounds e (length (requests w))). lia.
Qed.

(** When the recording URL answers with a status outside 2xx, nothing is
    stored under the recording key and nothing is logged; the note has a
    null recording path. *)
Theorem refused_download_is_silent (e : env) (data : parray) (w : world) (resp : Response.t) :
  http_get e (input_string data "recording_url") = Some resp ->
  Response.successful resp = false ->
  warnings (snd (handle e data w)) = warnings w /\
  disk (snd (handle e data w)) !! recording_key e (input_string data "conversation_id")
  = disk w !! recording_key e (input_string data "conversation_id") /\
  (forall owner, notable data w = Some owner ->
     exists n, notes (snd (handle e data w)) = notes w ++ [n] /\ Note.recording_path n = None).
Proof.
  intros Hget Hok.
  assert (Hrec : kept_recording e data = None).
  { unfold kept_recording. rewrite Hget, Hok. now destruct (truthy _). }
  split; [|split].
  - rewrite handle_stages. cbn [snd]. unfold job_world, download_warnings. cbn [warnings].
    rewrite Hget. destruct (truthy _); apply app_nil_r.
  - rewrite disk_after_run, Hrec. cbv zeta. unfold kept_transcript.
    destruct (truthy (input_string data "transcript")); [|reflexivity].
    apply lookup_insert_ne. intros E. symmetry in E. now apply keys_differ in E.
  - intros owner Ho. rewrite notes_after_run, Ho. eexists. split; [reflexivity|].
    unfold call_note. cbn [Note.recording_path]. now rewrite Hrec.
Qed.

Lemma kept_recording_key e data key content :
  kept_recording e data = Some (key, content) ->
  key = recording_key e (input_string data "conversation_id").
Proof.
  unfold kept_recording. destruct (truthy _); [|discriminate].
  destruct (http_get e _) as [resp|]; [|discriminate].
  destruct (Response.successful resp); [|discriminate]. now intros [= <- _].
Qed.

(** A run writes the object store at the transcript key and the recording
    key of its conversation at most: every other object is as before. *)
Theorem other_objects_untouched (e : env) (data : parray) (w : world) (key : string) :
  key <> transcript_key e (input_string data "conversation_id") ->
  key <> recording_key e (input_string data "conversation_id") ->
  disk (snd (handle e data w)) !! key = disk w !! key.
Proof.
  intros Ht Hr. rewrite disk_after_run. cbv zeta.
  assert (Hd : match kept_transcript e data with
               | Some k => <[k := input_string data "transcript"]> (disk w)
               | None => disk w
               end !! key = disk w !! key).
  { unfold kept_transcript. destruct (truthy _); [|reflexivity].
    now rewrite lookup_insert_ne by congruence. }
  destruct (kept_recording e data) as [[k content]|] eqn:Hrec; [|exact Hd].
  apply kept_recording_key in Hrec. subst k.
  now rewrite lookup_insert_ne by congruence.
Qed.

(** Whatever the outcome of a run, it removes nothing: the tables of
    contacts and properties are the same, the notes, the warnings and the
    requests are extended at the end (by one note at most), and every pair
    with a row and every key of the object store still has one. *)
Theorem run_only_adds (e : env) (data : parray) (w : world) :
  contacts (snd (handle e data w)) = contacts w /\
  properties (snd (handle e data w)) = properties w /\
  (exists added, notes (snd (handle e data w)) = notes w ++ added /\ (length added <= 1)%nat) /\
  (exists logged, warnings (snd (handle e data w)) = warnings w ++ logged) /\
  (exists posted, requests (snd (handle e data w)) = requests w ++ posted) /\
  dom (contact_property w) ⊆ dom (contact_property (snd (handle e data w))) /\
  dom (disk w) ⊆ dom (disk (snd (handle e data w))).
Proof.
  split; [apply handle_keeps_records|]. split; [apply handle_keeps_records|].
  split; [|split; [|split; [|split]]].
  - rewrite notes_after_run. eexists. split; [reflexivity|].
    destruct (notable data w); simpl; lia.
  - rewrite handle_stages. cbn [snd]. unfold job_world. cbn [warnings]. eauto.
  - rewrite handle_stages. cbn [snd]. unfold job_world. cbn [requests]. eauto.
  - rewrite handle_stages. cbn [snd]. unfold job_world. cbn [contact_property].
    destruct (associated data w); [|reflexivity].
    rewrite dom_insert_L. set_solver.
  - rewrite disk_after_run. cbv zeta.
    destruct (kept_transcript e data), (kept_recording e data) as [[k c]|];
      rewrite ?dom_insert_L; set_solver.
Qed.




End JobMore.

Lemma recording_is_stored_witness :
  let e := fetching (Some (Response.Make 200 "ID3-audio"))
                    (classification (PString "hot") (PInt 88)) in
  let w' := snd (handle e event_with_recording crm) in
  disk w' !! "calls/2025/01/15/c4-recording.mp3" = Some "ID3-audio" /\
  disk w' !! "calls/2025/01/15/c4-transcript.txt" = Some "Agent: hello" /\
  exists n, notes w' = [n] /\
            Note.recording_path n = Some "calls/2025/01/15/c4-recording.mp3" /\
            Note.transcript_path n = Some "calls/2025/01/15/c4-transcript.txt".
Proof.
  intros e w'.
  destruct (recording_is_stored e event_with_recording crm (Response.Make 200 "ID3-audio")
              eq_refl eq_refl eq_refl) as (Hr & Ht & Hn).
  split; [exact Hr|]. split; [apply Ht; reflexivity|].
  destruct (Hn (Contact, 1%positive) eq_refl) as (n & Hnotes & Hpath & Htp).
  exists n. split; [exact Hnotes|]. split; [exact Hpath|]. apply Htp. reflexivity.
Defined.

Lemma failed_download_is_logged_witness :
  let e := fetching None (classification (PString "hot") (PInt 88)) in
  let w' := snd (handle e event_with_recording crm) in
  warnings w' = ["Recording download failed"] /\
  disk w' !! "calls/2025/01/15/c4-recording.mp3" = None /\
  (exists n, notes w' = [n] /\ Note.recording_path n = None /\
             Note.transcript_path n = Some "calls/2025/01/15/c4-transcript.txt") /\
  (0 < length (requests w'))%nat.
Proof.
  intros e w'.
  destruct (failed_download_is_logged e event_with_recording crm eq_refl eq_refl)
    as (Hw & Hd & Hn & Hq).
  split; [exact Hw|]. split; [exact Hd|]. split; [|exact Hq].
  exact (Hn (Contact, 1%positive) eq_refl).
Defined.

Lemma refused_download_is_silent_witness :
  let e := fetching (Some (Response.Make 404 "gone")) (classification (PString "hot") (PInt 88)) in
  let w' := snd (handle e event_with_recording crm) in
  warnings w' = [] /\
  disk w' !! "calls/2025/01/15/c4-recording.mp3" = None /\
  exists n, notes w' = [n] /\ Note.recording_path n = None.
Proof.
  intros e w'.
  destruct (refused_download_is_silent e event_with_recording crm (Response.Make 404 "gone")
              eq_refl eq_refl) as (Hw & Hd & Hn).
  split; [exact Hw|]. split; [exact Hd|]. exact (Hn (Contact, 1%positive) eq_refl).
Defined.

Lemma other_objects_untouched_witness :
  let e := fetching (Some (Response.Make 200 "ID3-audio"))
                    (classification (PString "hot") (PInt 88)) in
  disk (snd (handle e event_with_recording crm_with_object))
    !! "calls/2025/01/14/c0-transcript.txt" = Some "Agent: hi".
Proof.
  intros e.
  rewrite (other_objects_untouched e event_with_recording crm_with_object
             "calls/2025/01/14/c0-transcript.txt").
  - reflexivity.
  - vm_compute. discriminate.
  - vm_compute. discriminate.
Defined.




(** ** The webhook endpoint on a sequence of requests *)

Lemma signed_iff cfg request : signed cfg request = true <-> verifySignature cfg request = None.
Proof.
  rewrite verifySignature_passes. unfold signed.
  destruct (header request "X-ElevenLabs-Signature") as [s|].
  - destruct (String.eqb_spec s (expected_signature cfg request)); split; congruence.
  - split; discriminate.
Qed.

Lemma handleWebhook_signed cfg request queue :
  handleWebhook cfg request queue
  = if signed cfg request
    then (Json [("status", PString "accepted")], queue ++ [all request])
    else (Abort 401, queue).
Proof.
  unfold handleWebhook. destruct (signed cfg request) eqn:Hs.
  - apply signed_iff in Hs. now rewrite Hs.
  - destruct (verifySignature cfg request) as [code|] eqn:Hv.
    + now rewrite (verifySignature_code _ _ _ Hv).
    + apply signed_iff in Hv. congruence.
Qed.

(** Over any sequence of deliveries, each request is answered on its own
    signature, and the queue ends with the inputs of exactly the signed
    requests, in the order of arrival, after what it held. *)
Theorem queue_holds_signed_requests_in_order (cfg : config) (requests : list Request)
    (queue : list parray) :
  receive_all cfg requests queue
  = (map (fun r => if signed cfg r then Json [("status", PString "accepted")] else Abort 401)
         requests,
     queue ++ map all (List.filter (signed cfg) requests)).
Proof.
  revert queue. induction requests as [|r rest IH]; intros queue.
  - simpl. now rewrite app_nil_r.
  - cbn [receive_all map List.filter]. rewrite handleWebhook_signed.
    destruct (signed cfg r); rewrite IH; [|reflexivity].
    cbn [map]. now rewrite <- app_assoc.
Qed.

(** ** The calling service and the client-data endpoint *)

Section ServiceMore.
Context `{PhpRuntime} `{Laravel} `{PhoneNumberUtil}.

(** A number that fails the validation is rejected before anything is
    sent: the call raises InvalidArgumentException and the state is as
    before. In every case a call posts at most one request, and only to a
    number that passes the validation, and it never touches the flashed
    messages. It leaves the cache as it was when the conversation identifier
    is missing or empty, and when it raises anything but TypeError. When the
    answer has not failed but its body is no JSON array, the call raises
    TypeError on its return, after the client data have been cached. *)
Theorem call_posts_valid_number_only (cfg : elevenlabs_config) (e : calls_env)
    (args : parray) (st : calls_state) :
  let r := fst (initiateOutboundCall cfg e args st) in
  let st' := snd (initiateOutboundCall cfg e args st) in
  let to := coalesce (array_get "to" args) (PString "") in
  let id := default PNull (array_get "conversation_id" args) in
  (is_array to = false -> isValidPhoneNumber (dialled args) "AU" = false ->
   r = Raised (InvalidArgumentException "Invalid phone number") /\ st' = st) /\
  flashed st' = flashed st /\
  (placed st' = placed st \/
   placed st' = placed st ++ [call_request cfg args] /\
   isValidPhoneNumber (dialled args) "AU" = true) /\
  (forall thrown, r = Raised thrown -> thrown <> TypeError -> cache st' = cache st) /\
  (to_bool id = false -> cache st' = cache st) /\
  (forall resp,
     is_array to = false -> isValidPhoneNumber (dialled args) "AU" = true ->
     outbound e (length (placed st)) = Some resp -> Response.failed resp = false ->
     is_array (Response.json resp) = false ->
     to_bool id = true -> is_array id = false ->
     r = Raised TypeError /\
     cache st' = Cache_put (cacheKey (strval id))
                           (coalesce (array_get "client_data" args) (PArray []))
                           (clock e + 15 * 60) (cache st)).
Proof.
  unfold initiateOutboundCall. fold (dialled args).
  destruct (is_array (coalesce (array_get "to" args) (PString ""))) eqn:Hto.
  { cbn [fst snd]. repeat split; try discriminate; try congruence. now left. }
  destruct (isValidPhoneNumber (dialled args) "AU") eqn:Hv; cbn [negb].
  2: { cbn [fst snd]. repeat split; try discriminate; try congruence. now left. }
  destruct (outbound e (length (placed st))) as [resp|] eqn:Hout.
  2: { cbn [fst snd flashed placed cache]. repeat split; try discriminate. right. now split. }
  destruct (Response.failed resp) eqn:Hf.
  { cbn [fst snd flashed placed cache]. repeat split; try discriminate; try congruence.
    right. now split. }
  destruct (to_bool (default PNull (array_get "conversation_id" args))) eqn:Hid.
  - destruct (is_array (default PNull (array_get "conversation_id" args))) eqn:Harr.
    + cbn [fst snd flashed placed cache]. repeat split; try discriminate; try congruence.
      right. now split.
    + cbn [fst snd flashed placed cache].
      split; [discriminate|]. split; [reflexivity|]. split; [right; now split|].
      split; [|split; [discriminate|]].
      * intros thrown Hr Hne. destruct (is_array (Response.json resp)); congruence.
      * intros resp' _ _ [= <-] _ Hnot _ _. rewrite Hnot. now split.
  - cbn [fst snd flashed placed cache]. repeat split; try discriminate; try congruence.
    right. now split.
Qed.

(** What a call that returns has done: the request is posted, and the
    client data are cached for fifteen minutes under the key of the
    conversation identifier when that identifier is not empty. *)
Lemma returned_call cfg e args st data st' :
  initiateOutboundCall cfg e args st = (Returned data, st') ->
  st' = CallsState
          (if to_bool (default PNull (array_get "conversation_id" args))
           then Cache_put (cacheKey (strval (default PNull (array_get "conversation_id" args))))
                          (coalesce (array_get "client_data" args) (PArray []))
                          (clock e + 15 * 60) (cache st)
           else cache st)
          (placed st ++ [call_request cfg args]) (flashed st).
Proof.
  unfold initiateOutboundCall. fold (dialled args).
  destruct (is_array (coalesce _ _)); [discriminate|].
  destruct (isValidPhoneNumber (dialled args) "AU"); cbn [negb]; [|discriminate].
  destruct (outbound e _) as [resp|]; [|discriminate].
  destruct (Response.failed _); [discriminate|].
  destruct (to_bool _).
  - destruct (is_array (default _ _)); [discriminate|].
    destruct (is_array (Response.json resp)); [|discriminate]. now intros [= _ <-].
  - destruct (is_array (Response.json resp)); [|discriminate]. now intros [= _ <-].
Qed.

(** The endpoint serves what the service cached: after a call that returned
    with a conversation identifier and client data that are not empty, a
    request made less than fifteen minutes later, whose conversation
    identifier is the same up to [Str::trim], gets these client data,
    whatever the tables hold and whatever contact and property it names. *)
Theorem cached_client_data_is_served (cfg : elevenlabs_config) (e : calls_env) (args : parray)
    (st st' : calls_state) (data : pval) (now : Z) (db : records) (request : DataRequest) :
  initiateOutboundCall cfg e args st = (Returned data, st') ->
  to_bool (default PNull (array_get "conversation_id" args)) = true ->
  to_bool (coalesce (array_get "client_data" args) (PArray [])) = true ->
  Str_trim (strval (input request "conversation_id"))
  = Str_trim (strval (default PNull (array_get "conversation_id" args))) ->
  now < clock e + 900 ->
  conversationInitiationClientData now db request st'
  = Json [("client_data", coalesce (array_get "client_data" args) (PArray []))].
Proof.
  intros Hcall Hid Hdata Hkey Hnow.
  rewrite (returned_call _ _ _ _ _ _ Hcall), Hid.
  unfold conversationInitiationClientData, Cache_get, Cache_put, cacheKey. cbn [cache].
  rewrite Hkey, lookup_insert_eq.
  replace (now <? clock e + 15 * 60) with true by (symmetry; apply Z.ltb_lt; lia).
  now rewrite Hdata.
Qed.

(** Fifteen minutes after the call, or later, the entry is no longer
    served: the endpoint answers from the tables. *)
Theorem expired_client_data_is_recomputed (cfg : elevenlabs_config) (e : calls_env)
    (args : parray) (st st' : calls_state) (data : pval) (now : Z) (db : records)
    (request : DataRequest) :
  initiateOutboundCall cfg e args st = (Returned data, st') ->
  to_bool (default PNull (array_get "conversation_id" args)) = true ->
  Str_trim (strval (input request "conversation_id"))
  = Str_trim (strval (default PNull (array_get "conversation_id" args))) ->
  clock e + 900 <= now ->
  conversationInitiationClientData now db request st' = client_data_from_records db request.
Proof.
  intros Hcall Hid Hkey Hnow.
  rewrite (returned_call _ _ _ _ _ _ Hcall), Hid.
  unfold conversationInitiationClientData, Cache_get, Cache_put, cacheKey. cbn [cache].
  rewrite Hkey, lookup_insert_eq.
  replace (now <? clock e + 15 * 60) with false by (symmetry; apply Z.ltb_ge; lia).
  reflexivity.
Qed.

(** A call made without client data caches the empty array, which the
    endpoint takes as no entry: it answers from the tables at any time. *)
Theorem empty_client_data_is_never_served (cfg : elevenlabs_config) (e : calls_env)
    (args : parray) (st st' : calls_state) (data : pval) (now : Z) (db : records)
    (request : DataRequest) :
  initiateOutboundCall cfg e args st = (Returned data, st') ->
  to_bool (default PNull (array_get "conversation_id" args)) = true ->
  to_bool (coalesce (array_get "client_data" args) (PArray [])) = false ->
  Str_trim (strval (input request "conversation_id"))
  = Str_trim (strval (default PNull (array_get "conversation_id" args))) ->
  conversationInitiationClientData now db request st' = client_data_from_records db request.
Proof.
  intros Hcall Hid Hdata Hkey.
  rewrite (returned_call _ _ _ _ _ _ Hcall), Hid.
  unfold conversationInitiationClientData, Cache_get, Cache_put, cacheKey. cbn [cache].
  rewrite Hkey, lookup_insert_eq.
  destruct (now <? clock e + 15 * 60); [now rewrite Hdata | reflexivity].
Qed.

(** Without a live entry for the conversation, the endpoint looks the
    contact up first and the property second: it answers 404 when the
    contact is not found, whether the property exists or not, 404 when only
    the property is missing, and the data built from the two rows and the
    user of the request otherwise. *)
Theorem client_data_needs_both_records (now : Z) (db : records) (request : DataRequest)
    (st : calls_state) :
  Cache_get now ("el_client_data:" +:+ Str_trim (strval (input request "conversation_id")))
            (cache st) = PNull ->
  (contact_row db (input request "contact_id") = None ->
   conversationInitiationClientData now db request st = Abort 404) /\
  (property_row db (input request "property_id") = None ->
   conversationInitiationClientData now db request st = Abort 404) /\
  (forall contact property,
     contact_row db (input request "contact_id") = Some contact ->
     property_row db (input request "property_id") = Some property ->
     conversationInitiationClientData now db request st
     = Json [("client_data", PArray (buildClientData contact property (user request)))]).
Proof.
  intros Hmiss. unfold conversationInitiationClientData. rewrite Hmiss. cbn [to_bool].
  unfold client_data_from_records. split; [|split].
  - now intros ->.
  - intros ->. now destruct (contact_row db _).
  - now intros contact property -> ->.
Qed.

End ServiceMore.

(** ** The two builders of client data *)

Lemma array_get_elem k v (a : parray) : array_get k a = Some v -> In (k, v) a.
Proof.
  induction a as [|[k' v'] a IH]; unfold array_get; fold array_get; [discriminate|].
  destruct (String.eqb_spec k k') as [->|_].
  - intros [= ->]. now left.
  - intros Hget. right. now apply IH.
Qed.

(** The data that the Livewire component sends at call initiation, and that
    the endpoint serves from the cache, are a part of the data that the
    endpoint builds from the tables: every entry but the features has the
    same value under the same key there. The features differ: with no
    feature listed the component says "No special features." and the
    endpoint "No special features provided.". *)
Theorem component_data_agree_with_endpoint (contact : ContactRow.t) (property : PropertyRow.t)
    (user : option UserRow.t) :
  (forall k v, array_get k (PropertyLeads_buildClientData contact property) = Some v ->
     k <> "features" ->
     array_get k (buildClientData contact property user) = Some v) /\
  (listed_features property = [] ->
   array_get "features" (PropertyLeads_buildClientData contact property)
   = Some (PString "No special features.") /\
   array_get "features" (buildClientData contact property user)
   = Some (PString "No special features provided.")).
Proof.
  split.
  - intros k v Hget Hk. apply array_get_elem in Hget.
    unfold PropertyLeads_buildClientData in Hget. simpl In in Hget.
    repeat (destruct Hget as [[= <- <-] | Hget]; [try reflexivity; congruence|]).
    destruct Hget.
  - intros Hnone. unfold PropertyLeads_buildClientData, buildClientData. rewrite Hnone.
    split; reflexivity.
Qed.

(** An entry of the features that is empty (null, false, 0, the empty
    string, the string 0, an empty array) can be added or removed anywhere
    without changing the data of either builder. *)
Theorem empty_features_are_ignored (contact : ContactRow.t) (property : PropertyRow.t)
    (user : option UserRow.t) (before after : parray) (k : string) (v : pval) :
  to_bool v = false ->
  buildClientData contact (with_features property (Some (before ++ (k, v) :: after))) user
  = buildClientData contact (with_features property (Some (before ++ after))) user /\
  PropertyLeads_buildClientData contact
    (with_features property (Some (before ++ (k, v) :: after)))
  = PropertyLeads_buildClientData contact (with_features property (Some (before ++ after))).
Proof.
  intros Hv.
  assert (Hl : listed_features (with_features property (Some (before ++ (k, v) :: after)))
               = listed_features (with_features property (Some (before ++ after)))).
  { unfold listed_features, with_features. cbn [PropertyRow.features default from_option id].
    rewrite !map_app, !List.filter_app. cbn [map List.filter snd]. now rewrite Hv. }
  unfold buildClientData, PropertyLeads_buildClientData. rewrite Hl. split; reflexivity.
Qed.

(** Features that are null or hold only empty entries give the fallback
    sentence of each builder. *)
Theorem no_feature_gives_fallback_sentence (contact : ContactRow.t) (property : PropertyRow.t)
    (user : option UserRow.t) (features : option parray) :
  Forall (fun entry => to_bool (snd entry) = false) (default [] features) ->
  array_get "features" (buildClientData contact (with_features property features) user)
  = Some (PString "No special features provided.") /\
  array_get "features" (PropertyLeads_buildClientData contact (with_features property features))
  = Some (PString "No special features.").
Proof.
  intros Hall.
  assert (Hl : listed_features (with_features property features) = []).
  { unfold listed_features, with_features. cbn [PropertyRow.features].
    induction (default [] features) as [|[k v] l IH]; [reflexivity|].
    inversion Hall as [|? ? Hv Hrest]; subst. cbn [map List.filter snd] in *.
    rewrite Hv. now apply IH. }
  unfold buildClientData, PropertyLeads_buildClientData. rewrite Hl. split; reflexivity.
Qed.

(** ** Phone numbers without the library *)

Lemma ltrim_zeros_head s : forall r, ltrim_zeros s <> String "0"%char r.
Proof.
  unfold ltrim_zeros. induction s as [|c s IH]; intros r; [discriminate|].
  cbn [ltrim_chars]. destruct (Ascii.eqb_spec "0"%char c) as [<-|Hc]; [apply IH|].
  intros [= E _]. congruence.
Qed.

(** When the library cannot parse the number, the formatted number starts
    with a plus sign, and when the number given had none the plus sign is
    not followed by a zero: the leading zeros are dropped. *)
Theorem fallback_format_starts_with_plus `{PhoneNumberUtil} (raw country : string) :
  parse (trim raw) country = None ->
  starts_with_plus (formatPhoneNumber raw country) = true /\
  (starts_with_plus (trim raw) = false ->
   exists rest, formatPhoneNumber raw country = String "+" rest /\
                forall r, rest <> String "0"%char r).
Proof.
  intros Hparse. unfold formatPhoneNumber. rewrite Hparse.
  destruct (starts_with_plus (trim raw)) eqn:Hplus.
  - split; [exact Hplus | discriminate].
  - split; [reflexivity|]. intros _. exists (ltrim_zeros (trim raw)).
    split; [reflexivity | apply ltrim_zeros_head].
Qed.

Lemma span_digits_spec s :
  exists ds, s = string_of_list_ascii ds +:+ snd (span_digits s) /\
             length ds = fst (span_digits s) /\
             Forall (fun c => is_digit c = true) ds.
Proof.
  induction s as [|c s IH].
  - exists []. repeat split. constructor.
  - cbn [span_digits]. destruct (is_digit c) eqn:Hc.
    + destruct IH as (ds & Hs & Hn & Hall). destruct (span_digits s) as [n rest].
      cbn [fst snd] in *. exists (c :: ds). split; [|split].
      * change (String c s = String c (string_of_list_ascii ds +:+ rest)). now rewrite <- Hs.
      * simpl. now rewrite Hn.
      * now constructor.
    + exists []. repeat split. constructor.
Qed.

(** A string accepted by the pattern of the fallback validation is an
    optional plus sign, a digit from 1 to 9 and 7 to 14 more digits, that is
    8 to 15 digits without leading zero, with nothing after them but
    possibly one final line feed. *)
Theorem fallback_pattern_shape (s : string) :
  matches_e164 s = true ->
  exists plus first more tail,
    s = plus +:+ String first (string_of_list_ascii more) +:+ tail /\
    (plus = "" \/ plus = "+") /\ (tail = "" \/ tail = LF) /\
    is_digit_1_9 first = true /\ Forall (fun c => is_digit c = true) more /\
    (7 <= length more <= 14)%nat.
Proof.
  unfold matches_e164. intros Hm.
  set (s' := match s with
             | String c r => if Ascii.eqb c "+"%char then r else s
             | EmptyString => s
             end) in *.
  assert (Hs : exists plus, s = plus +:+ s' /\ (plus = "" \/ plus = "+")).
  { subst s'. destruct s as [|c r]; [exists ""; now split; [|left]|].
    destruct (Ascii.eqb_spec c "+"%char) as [->|_].
    - exists "+". split; [reflexivity | now right].
    - exists "". split; [reflexivity | now left]. }
  destruct Hs as (plus & Hs & Hplus).
  destruct s' as [|d r]; [discriminate|].
  apply andb_prop in Hm. destruct Hm as [Hd Hm].
  destruct (span_digits_spec r) as (ds & Hr & Hn & Hall).
  destruct (span_digits r) as [n rest]. cbn [fst snd] in *.
  apply andb_prop in Hm. destruct Hm as [Hm Hend].
  apply andb_prop in Hm. destruct Hm as [Hlo Hhi].
  apply Nat.leb_le in Hlo, Hhi.
  exists plus, d, ds, rest. split; [|split; [exact Hplus|split; [|split; [exact Hd|split]]]].
  - rewrite Hs, Hr. reflexivity.
  - apply orb_prop in Hend. destruct Hend as [E|E]; apply String.eqb_eq in E; auto.
  - exact Hall.
  - lia.
Qed.

(** ** The Livewire component: the loop over the selected contacts *)

Section LoopOverContacts.
Context `{PhpRuntime} `{Laravel} `{PhoneNumberUtil}.

Lemma call_each_reaches cfg e property : forall before rest st,
  platform_accepts e ->
  Forall (fun c => isValidPhoneNumber (formatPhoneNumber (ContactRow.phone c) "AU") "AU" = true)
         before ->
  exists st', call_each cfg e property (before ++ rest) st = call_each cfg e property rest st' /\
              length (placed st') = (length (placed st) + length before)%nat /\
              flashed st' = flashed st.
Proof.
  induction before as [|c before IH]; intros rest st Hok Hvalid.
  - exists st. simpl. repeat split. lia.
  - inversion Hvalid as [|? ? Hc Hrest]; subst.
    cbn [call_each app]. unfold initiateOutboundCall.
    change (coalesce (array_get "to" _) (PString "")) with (PString (ContactRow.phone c)).
    change (default PNull (array_get "conversation_id" _))
      with (PString ("conv_" +:+ uniqid e (length (placed st)))).
    cbn [is_array strval to_bool].
    destruct (Hok (length (placed st))) as (resp & -> & -> & ->).
    rewrite Hc. cbn [negb]. change (truthy ("conv_" +:+ _)) with true. cbv iota.
    match goal with
    | |- context [call_each cfg e property (before ++ rest) ?s] =>
        destruct (IH rest s Hok Hrest) as (st' & Heq & Hlen & Hfl)
    end.
    exists st'. split; [exact Heq|]. split; [|exact Hfl].
    rewrite Hlen. cbn [placed]. rewrite length_app. simpl. lia.
Qed.

(** While the voice platform accepts the requests (every answer has not
    failed and carries a JSON array or object): when every selected contact
    has a number that passes the validation, one request per contact is
    posted and the message "AI calls initiated" is flashed; when one has
    not, the loop stops there with InvalidArgumentException, the requests of
    the contacts before it have been posted, those after it are not, and no
    message is flashed. *)
Theorem calls_stop_at_first_invalid_number (cfg : elevenlabs_config) (e : calls_env)
    (property : PropertyRow.t) (before after : list ContactRow.t) (st : calls_state) :
  platform_accepts e ->
  Forall (fun c => isValidPhoneNumber (formatPhoneNumber (ContactRow.phone c) "AU") "AU" = true)
         before ->
  (exists st', initiateAiCalls cfg e property before st = (Returned tt, st') /\
               length (placed st') = (length (placed st) + length before)%nat /\
               flashed st' = flashed st ++ [("status", "AI calls initiated")]) /\
  (forall c, isValidPhoneNumber (formatPhoneNumber (ContactRow.phone c) "AU") "AU" = false ->
     exists st', initiateAiCalls cfg e property (before ++ c :: after) st
                 = (Raised (InvalidArgumentException "Invalid phone number"), st') /\
                 length (placed st') = (length (placed st) + length before)%nat /\
                 flashed st' = flashed st).
Proof.
  intros Hok Hvalid. split.
  - destruct (call_each_reaches cfg e property before [] st Hok Hvalid) as (st' & Heq & Hlen & Hfl).
    rewrite app_nil_r in Heq. unfold initiateAiCalls. rewrite Heq. cbn [call_each].
    eexists. split; [reflexivity|]. cbn [placed flashed]. now rewrite Hfl.
  - intros c Hc.
    destruct (call_each_reaches cfg e property before (c :: after) st Hok Hvalid)
      as (st' & Heq & Hlen & Hfl).
    unfold initiateAiCalls. rewrite Heq. cbn [call_each]. unfold initiateOutboundCall.
    change (coalesce (array_get "to" _) (PString "")) with (PString (ContactRow.phone c)).
    cbn [is_array strval].
    rewrite Hc. cbn [negb]. exists st'. now repeat split.
Qed.

End LoopOverContacts.

(** ** The accessors of the note *)

Lemma truthy_calls_key x : truthy ("calls/" +:+ x) = true.
Proof. reflexivity. Qed.

(** The note created by a run reads back what the run stored: its
    transcript content is the transcript of the event when one was taken as
    present and null otherwise, and its recording URL is the signed URL of
    the recording key, valid for an hour, when the recording was stored and
    null otherwise. *)
Theorem note_reads_back_the_run `{PhpRuntime} (e : env) (data : parray) (w : world)
    (owner : model_class * positive) :
  notable data w = Some owner ->
  exists n,
    notes (snd (handle e data w)) = notes w ++ [n] /\
    getTranscriptContentAttribute n (disk (snd (handle e data w)))
    = (if truthy (input_string data "transcript")
       then Some (input_string data "transcript") else None) /\
    (forall temporaryUrl now,
       getRecordingUrlAttribute temporaryUrl now n
       = option_map (fun stored => temporaryUrl (fst stored) (now + 3600))
                    (kept_recording e data)).
Proof.
  intros Ho. rewrite notes_after_run, Ho. eexists. split; [reflexivity|]. split.
  - unfold getTranscriptContentAttribute, call_note. cbn [Note.transcript_path].
    unfold kept_transcript.
    destruct (truthy (input_string data "transcript")) eqn:Ht; [|reflexivity].
    unfold transcript_key at 1. rewrite truthy_calls_key.
    now apply transcript_stored.
  - intros sign now. unfold getRecordingUrlAttribute, call_note. cbn [Note.recording_path].
    destruct (kept_recording e data) as [[key content]|] eqn:Hr; [|reflexivity].
    cbn [option_map fst]. rewrite (kept_recording_key _ _ _ _ Hr).
    unfold recording_key at 1. now rewrite truthy_calls_key.
Qed.

(** Runs of the service, the endpoint and the component on concrete inputs. *)

Example fallback_numbers :
  formatPhoneNumber "  0412345678 " "AU" = "+412345678" /\
  formatPhoneNumber "+61 412 345 678" "AU" = "+61 412 345 678" /\
  isValidPhoneNumber "+61412345678" "AU" = true /\
  isValidPhoneNumber "+61 412 345 678" "AU" = false /\
  isValidPhoneNumber "+12" "AU" = false.
Proof. vm_compute. repeat split. Qed.

Example endpoint_features_text :
  array_get "features" (buildClientData lead_ada listing_2 None)
  = Some (PString ("1. pool" +:+ LF +:+ "2. garage")) /\
  array_get "features" (PropertyLeads_buildClientData lead_ada listing_2)
  = Some (PString " pool , garage") /\
  array_get "auction_date" (buildClientData lead_ada listing_2 None)
  = Some (PString "2025-02-01 10:30:00").
Proof. vm_compute. repeat split. Qed.

Lemma call_posts_valid_number_only_witness :
  let ada := args_for "+61412345678" (PString "conv_1") [("first_name", PString "Ada")] in
  let refused := initiateOutboundCall agent_config (platform (Response.Make 500 "busy")) ada
                   no_calls in
  let unread := initiateOutboundCall agent_config (platform (Response.Make 200 "queued")) ada
                  no_calls in
  initiateOutboundCall agent_config (platform accepted) (args_for "12" (PString "conv_1") [])
    no_calls
  = (Raised (InvalidArgumentException "Invalid phone number"), no_calls) /\
  fst refused = Raised (RuntimeException "ElevenLabs call initiation failed: busy") /\
  cache (snd refused) = ∅ /\
  cache (snd (initiateOutboundCall agent_config (platform accepted)
                (args_for "+61412345678" (PString "") [("first_name", PString "Ada")]) no_calls))
  = ∅ /\
  fst unread = Raised TypeError /\
  cache (snd unread)
  = Cache_put "el_client_data:conv_1" (PArray [("first_name", PString "Ada")])
              (1736900000 + 900) ∅.
Proof.
  intros ada refused unread. split; [|split; [reflexivity|split; [|split]]].
  - destruct (call_posts_valid_number_only agent_config (platform accepted)
                (args_for "12" (PString "conv_1") []) no_calls) as (Hinvalid & _).
    destruct Hinvalid as [Hr Hs]; [reflexivity|reflexivity|].
    apply injective_projections; [exact Hr | exact Hs].
  - apply (proj1 (proj2 (proj2 (proj2 (call_posts_valid_number_only agent_config
             (platform (Response.Make 500 "busy")) ada no_calls))))
             (RuntimeException "ElevenLabs call initiation failed: busy")).
    + reflexivity.
    + discriminate.
  - apply (proj1 (proj2 (proj2 (proj2 (proj2 (call_posts_valid_number_only agent_config
             (platform accepted)
             (args_for "+61412345678" (PString "") [("first_name", PString "Ada")])
             no_calls)))))).
    reflexivity.
  - pose proof (proj2 (proj2 (proj2 (proj2 (proj2 (call_posts_valid_number_only agent_config
                  (platform (Response.Make 200 "queued")) ada no_calls)))))
                  (Response.Make 200 "queued")) as Hw.
    cbv zeta in Hw. specialize (Hw eq_refl eq_refl eq_refl eq_refl eq_refl eq_refl eq_refl).
    destruct Hw as [Hr Hc].
    split; [exact Hr|]. subst unread. rewrite Hc. reflexivity.
Defined.

Lemma cached_client_data_is_served_witness :
  let st' := snd (initiateOutboundCall agent_config (platform accepted)
                    (args_for "+61412345678" (PString "conv_1") [("first_name", PString "Ada")])
                    no_calls) in
  conversationInitiationClientData (1736900000 + 899) rows_1_2
    (data_request [("conversation_id", PString " conv_1 ")]) st'
  = Json [("client_data", PArray [("first_name", PString "Ada")])].
Proof.
  intros st'.
  apply (cached_client_data_is_served agent_config (platform accepted)
           (args_for "+61412345678" (PString "conv_1") [("first_name", PString "Ada")])
           no_calls st' (PArray [])); try reflexivity.
Defined.

Lemma expired_client_data_is_recomputed_witness :
  let st' := snd (initiateOutboundCall agent_config (platform accepted)
                    (args_for "+61412345678" (PString "conv_1") [("first_name", PString "Ada")])
                    no_calls) in
  conversationInitiationClientData (1736900000 + 900) rows_1_2
    (data_request [("conversation_id", PString "conv_1"); ("contact_id", PInt 1);
                   ("property_id", PInt 2)]) st'
  = Json [("client_data", PArray (buildClientData lead_ada listing_2 None))].
Proof.
  intros st'.
  rewrite (expired_client_data_is_recomputed agent_config (platform accepted)
             (args_for "+61412345678" (PString "conv_1") [("first_name", PString "Ada")])
             no_calls st' (PArray [])); reflexivity.
Defined.

Lemma empty_client_data_is_never_served_witness :
  let st' := snd (initiateOutboundCall agent_config (platform accepted)
                    (args_for "+61412345678" (PString "conv_1") []) no_calls) in
  conversationInitiationClientData 1736900001 rows_1_2
    (data_request [("conversation_id", PString "conv_1")]) st'
  = Abort 404.
Proof.
  intros st'.
  rewrite (empty_client_data_is_never_served agent_config (platform accepted)
             (args_for "+61412345678" (PString "conv_1") []) no_calls st' (PArray []));
    reflexivity.
Defined.

Lemma client_data_needs_both_records_witness :
  conversationInitiationClientData 0 rows_1_2
    (data_request [("contact_id", PInt 9); ("property_id", PInt 2)]) no_calls = Abort 404 /\
  conversationInitiationClientData 0 rows_1_2
    (data_request [("contact_id", PInt 1); ("property_id", PInt 9)]) no_calls = Abort 404 /\
  conversationInitiationClientData 0 rows_1_2
    (data_request [("contact_id", PInt 1); ("property_id", PInt 2)]) no_calls
  = Json [("client_data", PArray (buildClientData lead_ada listing_2 None))].
Proof.
  split; [|split].
  - apply (proj1 (client_data_needs_both_records 0 rows_1_2
                    (data_request [("contact_id", PInt 9); ("property_id", PInt 2)]) no_calls
                    eq_refl)). reflexivity.
  - apply (proj1 (proj2 (client_data_needs_both_records 0 rows_1_2
                    (data_request [("contact_id", PInt 1); ("property_id", PInt 9)]) no_calls
                    eq_refl))). reflexivity.
  - apply (proj2 (proj2 (client_data_needs_both_records 0 rows_1_2
                    (data_request [("contact_id", PInt 1); ("property_id", PInt 2)]) no_calls
                    eq_refl))); reflexivity.
Defined.

Lemma component_data_agree_with_endpoint_witness :
  array_get "bedrooms" (buildClientData lead_ada (with_features listing_2 None) None)
  = Some (PString "3") /\
  array_get "features" (PropertyLeads_buildClientData lead_ada (with_features listing_2 None))
  = Some (PString "No special features.") /\
  array_get "features" (buildClientData lead_ada (with_features listing_2 None) None)
  = Some (PString "No special features provided.").
Proof.
  split.
  - apply (proj1 (component_data_agree_with_endpoint lead_ada (with_features listing_2 None) None)).
    + reflexivity.
    + discriminate.
  - apply (proj2 (component_data_agree_with_endpoint lead_ada (with_features listing_2 None) None)).
    reflexivity.
Defined.

Lemma empty_features_are_ignored_witness :
  buildClientData lead_ada
    (with_features listing_2 (Some ([("0", PString "pool")] ++ ("1", PString "0") :: [("2", PString "garage")])))
    None
  = buildClientData lead_ada
      (with_features listing_2 (Some ([("0", PString "pool")] ++ [("2", PString "garage")]))) None.
Proof.
  apply (proj1 (empty_features_are_ignored lead_ada listing_2 None [("0", PString "pool")]
                  [("2", PString "garage")] "1" (PString "0") eq_refl)).
Defined.

Lemma no_feature_gives_fallback_sentence_witness :
  array_get "features"
    (buildClientData lead_ada (with_features listing_2 (Some [("0", PString ""); ("1", PInt 0)])) None)
  = Some (PString "No special features provided.") /\
  array_get "features"
    (PropertyLeads_buildClientData lead_ada
       (with_features listing_2 (Some [("0", PString ""); ("1", PInt 0)])))
  = Some (PString "No special features.").
Proof.
  apply (no_feature_gives_fallback_sentence lead_ada listing_2 None
           (Some [("0", PString ""); ("1", PInt 0)])).
  repeat constructor.
Defined.

Lemma fallback_format_starts_with_plus_witness :
  starts_with_plus (formatPhoneNumber "  0412345678 " "AU") = true /\
  exists rest, formatPhoneNumber "  0412345678 " "AU" = String "+" rest /\
               forall r, rest <> String "0"%char r.
Proof.
  destruct (@fallback_format_starts_with_plus no_phone_library "  0412345678 " "AU" eq_refl)
    as [Hplus Hrest].
  split; [exact Hplus|]. apply Hrest. reflexivity.
Defined.

Lemma fallback_pattern_shape_witness :
  exists plus first more tail,
    "+61412345678" = plus +:+ String first (string_of_list_ascii more) +:+ tail /\
    (plus = "" \/ plus = "+") /\ (tail = "" \/ tail = LF) /\
    is_digit_1_9 first = true /\ Forall (fun c => is_digit c = true) more /\
    (7 <= length more <= 14)%nat.
Proof. apply (fallback_pattern_shape "+61412345678"). reflexivity. Defined.

Lemma calls_stop_at_first_invalid_number_witness :
  (exists st', initiateAiCalls agent_config (platform accepted) listing_2 [lead_ada] no_calls
               = (Returned tt, st') /\
               length (placed st') = 1%nat /\
               flashed st' = [("status", "AI calls initiated")]) /\
  (exists st', initiateAiCalls agent_config (platform accepted) listing_2
                 ([lead_ada] ++ lead_bob :: [lead_ada]) no_calls
               = (Raised (InvalidArgumentException "Invalid phone number"), st') /\
               length (placed st') = 1%nat /\ flashed st' = []).
Proof.
  destruct (calls_stop_at_first_invalid_number agent_config (platform accepted) listing_2
              [lead_ada] [lead_ada] no_calls) as [Hall Hstop].
  - intros n. exists accepted. now repeat split.
  - repeat constructor.
  - split; [exact Hall|]. apply (Hstop lead_bob). reflexivity.
Defined.

Lemma note_reads_back_the_run_witness :
  let e := fetching (Some (Response.Make 200 "ID3-audio"))
                    (classification (PString "hot") (PInt 88)) in
  exists n,
    notes (snd (handle e event_with_recording crm)) = [n] /\
    getTranscriptContentAttribute n (disk (snd (handle e event_with_recording crm)))
    = Some "Agent: hello" /\
    (forall temporaryUrl now,
       getRecordingUrlAttribute temporaryUrl now n
       = Some (temporaryUrl "calls/2025/01/15/c4-recording.mp3" (now + 3600))).
Proof.
  intros e.
  exact (note_reads_back_the_run e event_with_recording crm (Contact, 1%positive) eq_refl).
Defined.

(** ** The classification client and the exceptions *)

Section ClientThrows.
Context `{PhpRuntime}.







(** On the exchanges in which every request is answered, the loop is the
    loop of the client above. *)
Lemma attempts_of_answers e p : forall delays resp w,
  OpenAIService.attempts (fun n => Some (reasoning e n)) p delays resp w
  = (Returned (fst (attempts e p delays resp w)), snd (attempts e p delays resp w)).
Proof.
  induction delays as [|d rest IH]; intros resp w.
  - reflexivity.
  - cbn [OpenAIService.attempts attempts]. unfold bind at 1 3 5. unfold OpenAIService.post, Http_post.
    destruct (Response.successful _); [reflexivity|].
    destruct ((500 <=? _) || _); [|reflexivity].
    unfold bind, sleep. rewrite IH.
    now destruct (attempts e p rest _ _).
Qed.

(** The client above is the client with the exceptions, on the exchanges in
    which every request is answered by a response whose content is no
    array. *)
Lemma answered_client e summary w :
  (forall n, is_array (message_content (reasoning e n)) = false) ->
  OpenAIService.analyzeCallSummaryForInterestLevel (fun n => Some (reasoning e n)) summary w
  = (Returned (fst (analyzeCallSummaryForInterestLevel e summary w)),
     snd (analyzeCallSummaryForInterestLevel e summary w)).
Proof.
  intros Hcontent.
  unfold OpenAIService.analyzeCallSummaryForInterestLevel, analyzeCallSummaryForInterestLevel.
  unfold bind. rewrite attempts_of_answers.
  rewrite attempts_exchange. cbn [fst snd]. unfold ret.
  f_equal. unfold OpenAIService.conclude, conclude.
  destruct (exchange_kept e backoff (length (requests w)) None) as [-> | [m ->]]; [reflexivity|].
  destruct (Response.failed _); [reflexivity|]. now rewrite Hcontent.
Qed.


End ClientThrows.

(** Runs of the client with the exceptions on concrete services. *)



Example timeout_after_one_retry :
  OpenAIService.analyzeCallSummaryForInterestLevel (then_silent [Response.Make 503 ""]) "keen"
    empty_world
  = (Raised ConnectionException,
     World ∅ ∅ ∅ [] ∅ [] [prompt_of "keen"; prompt_of "keen"] [1]).
Proof. vm_compute. reflexivity. Qed.

Example array_content_raises :
  fst (OpenAIService.analyzeCallSummaryForInterestLevel
         (always (Response.Make 200
                    (Json.text
                       (PArray [("choices",
                                 PArray [("0", PArray [("message",
                                            PArray [("content",
                                                     PArray [("0", PString "hot")])])])])]))))
         "keen" empty_world)
  = Raised TypeError.
Proof. vm_compute. reflexivity. Qed.
